(** * A shallow embedding of the storefront application (app.py)

    The request handlers of [app.py] are embedded as pure functions from
    the persisted tables, the client's session, the request and the
    environment of the request (clock, outcome of the commit) to the new
    tables, the new session, the flashed messages and the response.
    The Flask, SQLAlchemy and Werkzeug calls the handlers make are
    modelled by what they do to these components. *)

From Stdlib Require Import ZArith String Ascii List Bool Lia.
From Stdlib Require Import DecimalString.
From Stdlib Require Import PrimFloat SpecFloat FloatOps.
Import ListNotations.

Open Scope string_scope.
Open Scope Z_scope.

(** ** Python values *)

Module Py.

(** [bool(s)] for [s : str | None]. *)
Definition truthy (o : option string) : bool :=
  match o with
  | Some s => negb (String.eqb s "")
  | None => false
  end.

(** [bool(f)] for [f : float | None]: a float is falsy exactly when it
    compares equal to zero (both signed zeros; a NaN is truthy). *)
Definition float_truthy (o : option float) : bool :=
  match o with
  | Some f => negb (PrimFloat.eqb f 0%float)
  | None => false
  end.

(** [str(n)] and [f'{n}'] for an [int]. *)
Definition str_of_int (z : Z) : string :=
  NilZero.string_of_int (Z.to_int z).




(** [os.path.join(a, b)] on a POSIX system. *)
Definition path_join (a b : string) : string :=
  if String.prefix "/" b then b
  else if String.eqb a "" then b
  else if String.eqb (substring (String.length a - 1)%nat 1%nat a) "/" then a ++ b
  else a ++ "/" ++ b.

End Py.

(** ** Dates *)

Record datetime : Type := mkDatetime {
  year : Z; month : Z; day : Z;
  hour : Z; minute : Z; second : Z; microsecond : Z
}.

Definition pad2 (z : Z) : string :=
  if z <? 10 then "0" ++ Py.str_of_int z else Py.str_of_int z.

(** [d.strftime('%Y%m%d_%H%M%S')], for a year of four digits. *)
Definition strftime_stamp (d : datetime) : string :=
  Py.str_of_int (year d) ++ pad2 (month d) ++ pad2 (day d) ++ "_"
  ++ pad2 (hour d) ++ pad2 (minute d) ++ pad2 (second d).

(** [d.strftime('%d.%m.%Y %H:%M')]. *)
Definition strftime_note (d : datetime) : string :=
  pad2 (day d) ++ "." ++ pad2 (month d) ++ "." ++ Py.str_of_int (year d)
  ++ " " ++ pad2 (hour d) ++ ":" ++ pad2 (minute d).

Definition datetime_key (d : datetime) : list Z :=
  [year d; month d; day d; hour d; minute d; second d; microsecond d].

Fixpoint lex_leb (a b : list Z) : bool :=
  match a, b with
  | [], _ => true
  | _ :: _, [] => false
  | x :: a', y :: b' => (x <? y) || ((x =? y) && lex_leb a' b')
  end.

(** [a <= b] on dates. *)
Definition datetime_leb (a b : datetime) : bool :=
  lex_leb (datetime_key a) (datetime_key b).

(** ** The models *)

Module User.
Record t : Type := mk {
  id : Z;
  username : string;
  email : string;
  password_hash : string;
  is_admin : bool;
  created_at : datetime
}.
End User.

Module News.
Record t : Type := mk {
  id : Z;
  title : string;
  content : string;
  image : option string;
  created_at : datetime;
  is_published : bool
}.
End News.

(** The columns [is_active] and [stock_quantity] are nullable, but every
    route that writes a product gives them a value. *)
Module Product.
Record t : Type := mk {
  id : Z;
  name : string;
  description : option string;
  price : float;
  image : option string;
  category : option string;
  is_active : bool;
  stock_quantity : Z;
  created_at : datetime
}.

(** The property [in_stock]. *)
Definition in_stock (self : t) : bool :=
  is_active self && (stock_quantity self >? 0).
End Product.

Module Order.
Record t : Type := mk {
  id : Z;
  customer_name : string;
  customer_phone : string;
  customer_email : option string;
  user_id : option Z;
  product_id : Z;
  quantity : Z;
  status : string;
  created_at : datetime;
  notes : option string
}.

End Order.

(** ** Tables, requests and responses *)

(** The four tables and the files saved under the upload folder (path
    and content, the latest first). *)
Record State : Type := mkState {
  users : list User.t;
  news : list News.t;
  products : list Product.t;
  orders : list Order.t;
  disk : list (string * string)
}.

Inductive Method : Type := GET | POST.

(** An uploaded file of [request.files]. *)
Record FileStorage : Type := mkFile {
  filename : string;
  stream : string
}.

Record Request : Type := mkRequest {
  method : Method;
  args : string -> option string;
  form : string -> option string;
  files : string -> option FileStorage
}.

(** What a request reads from outside the tables: the two clocks and the
    exception [db.session.commit()] raises, if it raises one. *)
Record Env : Type := mkEnv {
  now : datetime;
  utcnow : datetime;
  commit_error : option string
}.

Inductive Location : Type :=
| UrlFor (endpoint : string) (arg : option Z)
| Url (u : string).

Inductive Response : Type :=
| Render (template : string)
| Redirect (to : Location)
| NotFound
| ServerError.

(** The outcome of a request: the tables, the user id of the session
    cookie, the messages flashed (message and category) and the
    response. *)
Record Result : Type := mkResult {
  state : State;
  session : option Z;
  flashes : list (string * string);
  response : Response
}.

Definition set_products (st : State) (ps : list Product.t) : State :=
  mkState (users st) (news st) ps (orders st) (disk st).

Definition set_orders (st : State) (os : list Order.t) : State :=
  mkState (users st) (news st) (products st) os (disk st).

Definition set_news (st : State) (ns : list News.t) : State :=
  mkState (users st) ns (products st) (orders st) (disk st).

Definition set_users (st : State) (us : list User.t) : State :=
  mkState us (news st) (products st) (orders st) (disk st).

(** [file.save(path)]. *)
Definition save_file (st : State) (path : string) (f : FileStorage) : State :=
  mkState (users st) (news st) (products st) (orders st)
          ((path, stream f) :: disk st).

(** The primary key given to a new row. *)
Definition next_id (ids : list Z) : Z :=
  1 + fold_right Z.max 0 ids.

(** [Model.query.get(id)], for an id that SQLite's INTEGER holds; with a
    larger one the query raises instead of finding nothing. *)
Definition get_user (st : State) (i : Z) : option User.t :=
  find (fun u => User.id u =? i) (users st).

Definition get_news (st : State) (i : Z) : option News.t :=
  find (fun n => News.id n =? i) (news st).

Definition get_product (st : State) (i : Z) : option Product.t :=
  find (fun p => Product.id p =? i) (products st).

Definition get_order (st : State) (i : Z) : option Order.t :=
  find (fun o => Order.id o =? i) (orders st).

(** The relationship [order.product]. *)
Definition order_product (st : State) (o : Order.t) : option Product.t :=
  get_product st (Order.product_id o).

(** [User.query.filter_by(username=username).first()]. *)
Definition user_by_username (st : State) (username : option string)
  : option User.t :=
  match username with
  | Some n => find (fun u => String.eqb (User.username u) n) (users st)
  | None => None
  end.

Definition user_by_email (st : State) (email : option string)
  : option User.t :=
  match email with
  | Some e => find (fun u => String.eqb (User.email u) e) (users st)
  | None => None
  end.

(** [Order.query.filter_by(product_id=product_id).count()]. *)
Definition orders_count (st : State) (product_id : Z) : Z :=
  Z.of_nat (length (filter (fun o => Order.product_id o =? product_id)
                           (orders st))).

(** [current_user], loaded by [load_user] from the session. *)
Definition current_user (st : State) (sess : option Z) : option User.t :=
  match sess with
  | Some uid => get_user st uid
  | None => None
  end.

(** [query.order_by(created_at.desc())]; rows of equal date keep the
    order of the table. *)
Fixpoint insert_desc {A : Type} (key : A -> datetime) (x : A) (l : list A)
  : list A :=
  match l with
  | [] => [x]
  | y :: l' =>
      if datetime_leb (key y) (key x) then x :: y :: l'
      else y :: insert_desc key x l'
  end.

Definition order_by_desc {A : Type} (key : A -> datetime) (l : list A)
  : list A :=
  fold_right (insert_desc key) [] l.

(** [query.paginate(page=page, per_page=per_page, error_out=False)]:
    the items of the page, a page below 1 being page 1; for an offset
    that SQLite's INTEGER holds, as with a larger one the query raises. *)
Definition paginate {A : Type} (page per_page : Z) (l : list A) : list A :=
  let page := if page <? 1 then 1 else page in
  firstn (Z.to_nat per_page) (skipn (Z.to_nat ((page - 1) * per_page)) l).

Definition ITEMS_PER_PAGE : Z := 12.

(** The four values an order's status takes. *)
Definition STATUSES : list string :=
  ["новый"; "в обработке"; "выполнен"; "отменен"].

(** [s in l] on strings. *)
Definition str_in (s : string) (l : list string) : bool :=
  existsb (String.eqb s) l.

Definition abort404 (st : State) (sess : option Z) : Result :=
  mkResult st sess [] NotFound.

(** An exception no handler catches: the 500 handler rolls back. *)
Definition error500 (st : State) (sess : option Z) : Result :=
  mkResult st sess [] ServerError.

(** What the catalog page is rendered from. *)
Record CatalogPage : Type := mkCatalogPage {
  page_products : list Product.t;
  categories : list string;
  current_category : string;
  page_in_stock : option string
}.

(** ** The request handlers *)

Section Handlers.

(** [int(s)] and [float(s)]; [None] when they raise [ValueError]. *)
Variable py_int : string -> option Z.
Variable py_float : string -> option float.

(** Werkzeug's [secure_filename], [generate_password_hash] and
    [check_password_hash]; the last one gives [None] when it raises. *)
Variable secure_filename : string -> string.
Variable generate_password_hash : string -> string.
Variable check_password_hash : string -> option string -> option bool.

(** [app.config['UPLOAD_FOLDER']]. *)
Variable UPLOAD_FOLDER : string.

(** [m.get(key, default)]. *)
Definition get_str (m : string -> option string) (key default : string)
  : string :=
  match m key with
  | Some s => s
  | None => default
  end.

(** [m.get(key, default, type=int)]: the default also when the
    conversion fails. *)
Definition get_int (m : string -> option string) (key : string)
           (default : Z) : Z :=
  match m key with
  | Some s =>
      match py_int s with
      | Some z => z
      | None => default
      end
  | None => default
  end.

(** [m.get(key, type=float)]. *)
Definition get_float (m : string -> option string) (key : string)
  : option float :=
  match m key with
  | Some s => py_float s
  | None => None
  end.

(** The value of a field that was tested to be present. *)
Definition value (o : option string) : string :=
  match o with
  | Some s => s
  | None => ""
  end.

(** [a == b] on [str | None]. *)
Definition opt_str_eqb (a b : option string) : bool :=
  match a, b with
  | Some x, Some y => String.eqb x y
  | None, None => true
  | _, _ => false
  end.

(** [category = c] in a query: false on a row without a category. *)
Definition category_is (c : string) (p : Product.t) : bool :=
  match Product.category p with
  | Some c' => String.eqb c' c
  | None => false
  end.

(** [db.session.query(Product.category).distinct().all()], the empty
    ones dropped; the order of the list is the database's choice. *)
Definition known_categories (st : State) : list string :=
  nodup string_dec
        (filter (fun c => negb (String.eqb c ""))
                (flat_map (fun p => match Product.category p with
                                    | Some c => [c]
                                    | None => []
                                    end) (products st))).

(** The rows the catalog selects, before ordering and paging. *)
Definition catalog_query (st : State) (req : Request) : list Product.t :=
  let category := get_str (args req) "category" "" in
  let min_price := get_float (args req) "min_price" in
  let max_price := get_float (args req) "max_price" in
  let in_stock := args req "in_stock" in
  let query := products st in
  let query :=
    if negb (String.eqb category "")
    then filter (category_is category) query else query in
  let query :=
    match min_price with
    | Some m =>
        if Py.float_truthy min_price
        then filter (fun p => PrimFloat.leb m (Product.price p)) query
        else query
    | None => query
    end in
  let query :=
    match max_price with
    | Some m =>
        if Py.float_truthy max_price
        then filter (fun p => PrimFloat.leb (Product.price p) m) query
        else query
    | None => query
    end in
  if opt_str_eqb in_stock (Some "1")
  then filter (fun p => Product.is_active p
                        && (Product.stock_quantity p >? 0)) query
  else filter Product.is_active query.

(** [GET /catalog]. *)
Definition catalog (st : State) (req : Request) : CatalogPage :=
  let page := get_int (args req) "page" 1 in
  mkCatalogPage
    (paginate page ITEMS_PER_PAGE
              (order_by_desc Product.created_at (catalog_query st req)))
    (known_categories st)
    (get_str (args req) "category" "")
    (args req "in_stock").

(** [GET|POST /order/create/<product_id>]. *)
Definition create_order (st : State) (sess : option Z) (req : Request)
           (env : Env) (product_id : Z) : Result :=
  match get_product st product_id with
  | None => abort404 st sess
  | Some product =>
      if negb (Product.in_stock product) then
        mkResult st sess
                 [("Этот товар временно отсутствует в наличии", "danger")]
                 (Redirect (UrlFor "product_detail" (Some product_id)))
      else
        match method req with
        | GET => mkResult st sess [] (Render "order_create.html")
        | POST =>
            let customer_name := form req "customer_name" in
            let customer_phone := form req "customer_phone" in
            let customer_email := form req "customer_email" in
            let quantity := get_int (form req) "quantity" 1 in
            let notes := get_str (form req) "notes" "" in
            if negb (Py.truthy customer_name)
               || negb (Py.truthy customer_phone) then
              mkResult st sess
                       [("Пожалуйста, заполните обязательные поля (имя и телефон)",
                         "danger")]
                       (Redirect (UrlFor "create_order" (Some product_id)))
            else
              let quantity := if quantity <? 1 then 1 else quantity in
              if quantity >? Product.stock_quantity product then
                mkResult st sess
                         [("На складе осталось только "
                             ++ Py.str_of_int (Product.stock_quantity product)
                             ++ " шт. этого товара", "warning")]
                         (Redirect (UrlFor "create_order" (Some product_id)))
              else
                let order_id := next_id (map Order.id (orders st)) in
                let order :=
                  match current_user st sess with
                  | Some u =>
                      Order.mk order_id (value customer_name)
                               (value customer_phone)
                               (if negb (Py.truthy customer_email)
                                   && negb (String.eqb (User.email u) "")
                                then Some (User.email u)
                                else customer_email)
                               (Some (User.id u)) product_id quantity
                               "новый" (utcnow env) (Some notes)
                  | None =>
                      Order.mk order_id (value customer_name)
                               (value customer_phone) customer_email None
                               product_id quantity "новый" (utcnow env)
                               (Some notes)
                  end in
                match commit_error env with
                | None =>
                    mkResult (set_orders st (orders st ++ [order])%list) sess
                             [("Заказ №" ++ Py.str_of_int order_id
                                 ++ " успешно оформлен! Мы свяжемся с вами в ближайшее время.",
                               "success")]
                             (Redirect (UrlFor "order_success" (Some order_id)))
                | Some e =>
                    mkResult st sess
                             [("Произошла ошибка при создании заказа: " ++ e,
                               "danger")]
                             (Redirect (UrlFor "create_order" (Some product_id)))
                end
        end
  end.

(** [GET|POST /login]. *)
Definition login (st : State) (sess : option Z) (req : Request) : Result :=
  match current_user st sess with
  | Some _ => mkResult st sess [] (Redirect (UrlFor "index" None))
  | None =>
      match method req with
      | GET => mkResult st sess [] (Render "login.html")
      | POST =>
          let username := form req "username" in
          let password := form req "password" in
          let failed :=
            mkResult st sess
                     [("Неверное имя пользователя или пароль", "danger")]
                     (Render "login.html") in
          match user_by_username st username with
          | Some user =>
              match check_password_hash (User.password_hash user) password with
              | Some true =>
                  let next_page := args req "next" in
                  mkResult st (Some (User.id user))
                           [("Вы успешно вошли в систему", "success")]
                           (Redirect (if Py.truthy next_page
                                      then Url (value next_page)
                                      else UrlFor "index" None))
              | Some false => failed
              | None => error500 st sess
              end
          | None => failed
          end
      end
  end.

(** [login_manager.login_message]. *)
Definition LOGIN_MESSAGE : string :=
  "Пожалуйста, войдите для доступа к этой странице".

(** What [login_required] answers to a client that is not logged in;
    the [next] parameter that is added to the URL is left out. *)
Definition unauthorized (st : State) (sess : option Z) : Result :=
  mkResult st sess [(LOGIN_MESSAGE, "message")]
           (Redirect (UrlFor "login" None)).

(** [GET /logout]. *)
Definition logout (st : State) (sess : option Z) : Result :=
  match current_user st sess with
  | None => unauthorized st sess
  | Some _ =>
      mkResult st None [("Вы вышли из системы", "info")]
               (Redirect (UrlFor "index" None))
  end.

(** [GET|POST /register]; a missing password makes [set_password]
    raise, a missing name or email makes the commit raise. *)
Definition register (st : State) (sess : option Z) (req : Request)
           (env : Env) : Result :=
  match current_user st sess with
  | Some _ => mkResult st sess [] (Redirect (UrlFor "index" None))
  | None =>
      match method req with
      | GET => mkResult st sess [] (Render "register.html")
      | POST =>
          let username := form req "username" in
          let email := form req "email" in
          let password := form req "password" in
          let confirm_password := form req "confirm_password" in
          if negb (opt_str_eqb password confirm_password) then
            mkResult st sess [("Пароли не совпадают", "danger")]
                     (Redirect (UrlFor "register" None))
          else
            match user_by_username st username with
            | Some _ =>
                mkResult st sess
                         [("Это имя пользователя уже занято", "danger")]
                         (Redirect (UrlFor "register" None))
            | None =>
                match user_by_email st email with
                | Some _ =>
                    mkResult st sess
                             [("Этот email уже используется", "danger")]
                             (Redirect (UrlFor "register" None))
                | None =>
                    match username, email, password, commit_error env with
                    | Some n, Some e, Some pw, None =>
                        let user :=
                          User.mk (next_id (map User.id (users st))) n e
                                  (generate_password_hash pw) false
                                  (utcnow env) in
                        mkResult (set_users st (users st ++ [user])%list) sess
                                 [("Регистрация успешна! Теперь вы можете войти.",
                                   "success")]
                                 (Redirect (UrlFor "login" None))
                    | _, _, _, _ => error500 st sess
                    end
                end
            end
      end
  end.

(** The guard every admin route starts with, under [login_required]. *)
Definition admin_only (st : State) (sess : option Z)
           (k : User.t -> Result) : Result :=
  match current_user st sess with
  | None => unauthorized st sess
  | Some u =>
      if negb (User.is_admin u) then
        mkResult st sess [("Доступ запрещен", "danger")]
                 (Redirect (UrlFor "index" None))
      else k u
  end.

(** [bool(image)] of an uploaded file: its name is not empty. *)
Definition file_truthy (o : option FileStorage) : bool :=
  match o with
  | Some f => negb (String.eqb (filename f) "")
  | None => false
  end.

(** [os.path.join(app.config['UPLOAD_FOLDER'], folder, filename)]. *)
Definition upload_path (folder name : string) : string :=
  Py.path_join (Py.path_join UPLOAD_FOLDER folder) name.

(** The name under which the three stamping routes store a file. *)
Definition stamped (env : Env) (f : FileStorage) : string :=
  strftime_stamp (now env) ++ "_" ++ secure_filename (filename f).

(** [GET|POST /admin/news/new]. *)
Definition admin_create_news (st : State) (sess : option Z) (req : Request)
           (env : Env) : Result :=
  admin_only st sess (fun _ =>
    match method req with
    | GET => mkResult st sess [] (Render "admin/create_news.html")
    | POST =>
        let title := form req "title" in
        let content := form req "content" in
        let image := files req "image" in
        let is_published := opt_str_eqb (form req "is_published") (Some "1") in
        if negb (Py.truthy title) || negb (Py.truthy content) then
          mkResult st sess [("Заполните обязательные поля", "danger")]
                   (Redirect (UrlFor "admin_create_news" None))
        else
          let news_id := next_id (map News.id (news st)) in
          let '(st1, news_image) :=
            match image with
            | Some f =>
                if file_truthy image then
                  let filename := stamped env f in
                  (save_file st (upload_path "news" filename) f,
                   Some ("uploads/news/" ++ filename))
                else (st, None)
            | None => (st, None)
            end in
          let item :=
            News.mk news_id (value title) (value content) news_image
                    (utcnow env) is_published in
          match commit_error env with
          | None =>
              mkResult (set_news st1 (news st1 ++ [item])%list) sess
                       [("Новость успешно создана", "success")]
                       (Redirect (UrlFor "admin_news" None))
          | Some _ => error500 st1 sess
          end
    end).

(** [GET|POST /admin/news/edit/<news_id>]. *)
Definition admin_edit_news (st : State) (sess : option Z) (req : Request)
           (env : Env) (news_id : Z) : Result :=
  admin_only st sess (fun _ =>
    match get_news st news_id with
    | None => abort404 st sess
    | Some news_item =>
        match method req with
        | GET => mkResult st sess [] (Render "admin/edit_news.html")
        | POST =>
            let title := form req "title" in
            let content := form req "content" in
            let is_published :=
              opt_str_eqb (form req "is_published") (Some "1") in
            let image := files req "image" in
            let '(st1, news_image) :=
              match image with
              | Some f =>
                  if file_truthy image then
                    let filename := stamped env f in
                    (save_file st (upload_path "news" filename) f,
                     Some ("uploads/news/" ++ filename))
                  else (st, News.image news_item)
              | None => (st, News.image news_item)
              end in
            let news_image :=
              if opt_str_eqb (form req "delete_image") (Some "1")
              then None else news_image in
            match title, content, commit_error env with
            | Some t, Some c, None =>
                let item :=
                  News.mk (News.id news_item) t c news_image
                          (News.created_at news_item) is_published in
                mkResult
                  (set_news st1
                     (map (fun n => if News.id n =? News.id news_item
                                    then item else n) (news st1)))
                  sess [("Новость успешно обновлена", "success")]
                  (Redirect (UrlFor "admin_news" None))
            | _, _, _ => error500 st1 sess
            end
        end
    end).

(** [POST /admin/news/delete/<news_id>]. *)
Definition admin_delete_news (st : State) (sess : option Z) (env : Env)
           (news_id : Z) : Result :=
  admin_only st sess (fun _ =>
    match get_news st news_id with
    | None => abort404 st sess
    | Some news_item =>
        match commit_error env with
        | None =>
            mkResult
              (set_news st
                 (filter (fun n => negb (News.id n =? News.id news_item))
                         (news st)))
              sess [("Новость успешно удалена", "success")]
              (Redirect (UrlFor "admin_news" None))
        | Some e =>
            mkResult st sess
                     [("Ошибка при удалении новости: " ++ e, "danger")]
                     (Redirect (UrlFor "admin_news" None))
        end
    end).

Definition LF : string := String (ascii_of_nat 10) "".
Definition DQ : string := String (ascii_of_nat 34) "".

Definition replace_order (o' : Order.t) (os : list Order.t) : list Order.t :=
  map (fun o => if Order.id o =? Order.id o' then o' else o) os.

Definition replace_product (p' : Product.t) (ps : list Product.t)
  : list Product.t :=
  map (fun p => if Product.id p =? Product.id p' then p' else p) ps.

(** [GET|POST /admin/order/<order_id>]. *)
Definition admin_order_detail (st : State) (sess : option Z)
           (req : Request) (env : Env) (order_id : Z) : Result :=
  admin_only st sess (fun _ =>
    match get_order st order_id with
    | None => abort404 st sess
    | Some order =>
        match method req with
        | GET => mkResult st sess [] (Render "admin/order_detail.html")
        | POST =>
            let new_status := form req "status" in
            let admin_notes := get_str (form req) "admin_notes" "" in
            let status :=
              if Py.truthy new_status && str_in (value new_status) STATUSES
              then value new_status else Order.status order in
            let note :=
              "[Админ " ++ strftime_note (now env) ++ "]: " ++ admin_notes in
            let notes :=
              if negb (String.eqb admin_notes "") then
                if Py.truthy (Order.notes order)
                then Some (value (Order.notes order) ++ LF ++ note)
                else Some note
              else Order.notes order in
            match commit_error env with
            | None =>
                let order' :=
                  Order.mk (Order.id order) (Order.customer_name order)
                           (Order.customer_phone order)
                           (Order.customer_email order) (Order.user_id order)
                           (Order.product_id order) (Order.quantity order)
                           status (Order.created_at order) notes in
                mkResult (set_orders st (replace_order order' (orders st)))
                         sess [("Статус заказа обновлен", "success")]
                         (Redirect (UrlFor "admin_order_detail" (Some order_id)))
            | Some _ => error500 st sess
            end
        end
    end).

(** [GET|POST /admin/product/new]. *)
Definition admin_create_product (st : State) (sess : option Z)
           (req : Request) (env : Env) : Result :=
  admin_only st sess (fun _ =>
    match method req with
    | GET => mkResult st sess [] (Render "admin/create_product.html")
    | POST =>
        let name := form req "name" in
        let description := form req "description" in
        let price := get_float (form req) "price" in
        let category := form req "category" in
        let stock_quantity := get_int (form req) "stock_quantity" 10 in
        let image := files req "image" in
        let '(st1, product_image) :=
          match image with
          | Some f =>
              if file_truthy image then
                let filename := secure_filename (filename f) in
                (save_file st (upload_path "products" filename) f,
                 Some ("uploads/products/" ++ filename))
              else (st, None)
          | None => (st, None)
          end in
        match name, price, commit_error env with
        | Some n, Some pr, None =>
            let product :=
              Product.mk (next_id (map Product.id (products st1))) n
                         description pr product_image category true
                         stock_quantity (utcnow env) in
            mkResult (set_products st1 (products st1 ++ [product])%list) sess
                     [("Товар успешно создан", "success")]
                     (Redirect (UrlFor "admin_products" None))
        | _, _, _ => error500 st1 sess
        end
    end).

(** [GET|POST /admin/product/edit/<product_id>]. *)
Definition admin_edit_product (st : State) (sess : option Z)
           (req : Request) (env : Env) (product_id : Z) : Result :=
  admin_only st sess (fun _ =>
    match get_product st product_id with
    | None => abort404 st sess
    | Some product =>
        match method req with
        | GET => mkResult st sess [] (Render "admin/edit_product.html")
        | POST =>
            let name := form req "name" in
            let description := form req "description" in
            let price := get_float (form req) "price" in
            let category := form req "category" in
            let stock_quantity := get_int (form req) "stock_quantity" 10 in
            let is_active := opt_str_eqb (form req "is_active") (Some "1") in
            let image := files req "image" in
            let '(st1, product_image) :=
              match image with
              | Some f =>
                  if file_truthy image then
                    let filename := stamped env f in
                    (save_file st (upload_path "products" filename) f,
                     Some ("uploads/products/" ++ filename))
                  else (st, Product.image product)
              | None => (st, Product.image product)
              end in
            let product_image :=
              if opt_str_eqb (form req "delete_image") (Some "1")
              then None else product_image in
            match name, price, commit_error env with
            | Some n, Some pr, None =>
                let product' :=
                  Product.mk (Product.id product) n description pr
                             product_image category is_active stock_quantity
                             (Product.created_at product) in
                mkResult
                  (set_products st1 (replace_product product' (products st1)))
                  sess [("Товар успешно обновлен", "success")]
                  (Redirect (UrlFor "admin_products" None))
            | _, _, _ => error500 st1 sess
            end
        end
    end).

(** [POST /admin/product/delete/<product_id>]. *)
Definition admin_delete_product (st : State) (sess : option Z) (env : Env)
           (product_id : Z) : Result :=
  admin_only st sess (fun _ =>
    match get_product st product_id with
    | None => abort404 st sess
    | Some product =>
        let orders_count := orders_count st product_id in
        if orders_count >? 0 then
          mkResult st sess
                   [("Нельзя удалить товар, так как на него есть "
                       ++ Py.str_of_int orders_count ++ " заказ(ов)", "danger")]
                   (Redirect (UrlFor "admin_products" None))
        else
          match commit_error env with
          | None =>
              mkResult
                (set_products st
                   (filter (fun p => negb (Product.id p =? Product.id product))
                           (products st)))
                sess [("Товар успешно удален", "success")]
                (Redirect (UrlFor "admin_products" None))
          | Some e =>
              mkResult st sess
                       [("Ошибка при удалении товара: " ++ e, "danger")]
                       (Redirect (UrlFor "admin_products" None))
          end
    end).

(** [POST /admin/product/toggle/<product_id>]. *)
Definition admin_toggle_product (st : State) (sess : option Z) (env : Env)
           (product_id : Z) : Result :=
  admin_only st sess (fun _ =>
    match get_product st product_id with
    | None => abort404 st sess
    | Some product =>
        match commit_error env with
        | None =>
            let product' :=
              Product.mk (Product.id product) (Product.name product)
                         (Product.description product) (Product.price product)
                         (Product.image product) (Product.category product)
                         (negb (Product.is_active product))
                         (Product.stock_quantity product)
                         (Product.created_at product) in
            let status :=
              if Product.is_active product' then "включен" else "выключен" in
            mkResult
              (set_products st (replace_product product' (products st)))
              sess
              [("Товар " ++ DQ ++ Product.name product ++ DQ ++ " " ++ status,
                "success")]
              (Redirect (UrlFor "admin_products" None))
        | Some _ => error500 st sess
        end
    end).

(** [init_database()], run at moment [t]. *)
Definition init_database (t : datetime) : State :=
  mkState
    [ User.mk 1 "admin" "admin@example.com"
              (generate_password_hash "admin123") true t;
      User.mk 2 "testuser" "test@example.com"
              (generate_password_hash "test123") false t ]
    [ News.mk 1 "Открытие нового магазина"
              "Мы рады сообщить об открытии нового магазина!" None t true;
      News.mk 2 "Специальные скидки на технику"
              "Только в декабре скидки до 30%!" None t true ]
    [ Product.mk 1 "Ноутбук HP Pavilion"
                 (Some "Мощный ноутбук для работы и игр.")
                 0x1.116ffd70a3d71p+16%float None (Some "Электроника")
                 true 5 t;
      Product.mk 2 "Смартфон Samsung Galaxy"
                 (Some "Флагманский смартфон с камерой 108 МП.")
                 54999.5%float None (Some "Электроника") true 0 t;
      Product.mk 3 "Наушники Sony WH-1000XM4"
                 (Some "Беспроводные наушники с шумоподавлением.")
                 24999%float None (Some "Аксессуары") true 10 t;
      Product.mk 4 ("Книга " ++ DQ ++ "Python для начинающих" ++ DQ)
                 (Some "Полное руководство по Python.")
                 0x1.8fff5c28f5c29p+10%float None (Some "Книги") true 20 t ]
    [] [].

(** One request served by a route that writes: the tables before and
    after. The other routes only read. *)
Inductive step (st : State) : State -> Prop :=
| step_create_order sess req env product_id :
    step st (state (create_order st sess req env product_id))
| step_login sess req :
    step st (state (login st sess req))
| step_logout sess :
    step st (state (logout st sess))
| step_register sess req env :
    step st (state (register st sess req env))
| step_admin_create_news sess req env :
    step st (state (admin_create_news st sess req env))
| step_admin_edit_news sess req env news_id :
    step st (state (admin_edit_news st sess req env news_id))
| step_admin_delete_news sess env news_id :
    step st (state (admin_delete_news st sess env news_id))
| step_admin_order_detail sess req env order_id :
    step st (state (admin_order_detail st sess req env order_id))
| step_admin_create_product sess req env :
    step st (state (admin_create_product st sess req env))
| step_admin_edit_product sess req env product_id :
    step st (state (admin_edit_product st sess req env product_id))
| step_admin_delete_product sess env product_id :
    step st (state (admin_delete_product st sess env product_id))
| step_admin_toggle_product sess env product_id :
    step st (state (admin_toggle_product st sess env product_id)).

(** The tables the application can reach from its start. *)
Inductive reachable : State -> Prop :=
| reachable_init t : reachable (init_database t)
| reachable_step st st' : reachable st -> step st st' -> reachable st'.

End Handlers.

(** ** Concrete requests *)

(** [int(s)] on a decimal numeral, as [py_int] in the examples. *)
Definition dec_int (s : string) : option Z :=
  option_map Z.of_int (NilZero.int_of_string s).

(** [float(s)] on the numerals the examples submit. *)
Definition dec_float (s : string) : option float :=
  if String.eqb s "0" then Some 0%float
  else if String.eqb s "50" then Some 50%float
  else if String.eqb s "100" then Some 100%float
  else None.

(** Fields of a form or of a query string. *)
Definition fields (l : list (string * string)) : string -> option string :=
  fun key =>
    option_map snd (find (fun kv => String.eqb (fst kv) key) l).

Definition no_files : string -> option FileStorage := fun _ => None.

Definition one_file (key : string) (f : FileStorage)
  : string -> option FileStorage :=
  fun k => if String.eqb k key then Some f else None.

Definition t0 : datetime := mkDatetime 2024 1 15 9 30 0 0.
Definition t1 : datetime := mkDatetime 2024 3 7 18 5 42 0.

Definition env_ok : Env := mkEnv t1 t1 None.

(** The product of the end-to-end scenario: active, stock 5, price 100. *)
Definition widget : Product.t :=
  Product.mk 1 "Widget" None 100%float None (Some "Tools") true 5 t0.

Definition the_admin : User.t :=
  User.mk 1 "admin" "admin@example.com" "hash:admin123" true t0.

Definition shop : State := mkState [the_admin] [] [widget] [] [].

Definition order_request (quantity : string) : Request :=
  mkRequest POST (fields [])
            (fields [("customer_name", "Ann"); ("customer_phone", "555");
                     ("quantity", quantity)])
            no_files.

(** The tables after the scenario's order of three widgets. *)
Definition shop_after_order : State :=
  state (create_order dec_int shop None (order_request "3") env_ok 1).

(** The order the scenario stores. *)
Definition order_of_three : Order.t :=
  Order.mk 1 "Ann" "555" None None 1 3 "новый" t1 (Some "").


(** A password check that knows the hashes of the examples; like the
    one of Werkzeug it raises when there is no password. *)
Definition check_hash (pwhash : string) (password : option string)
  : option bool :=
  match password with
  | Some pw => Some (String.eqb pwhash ("hash:" ++ pw))
  | None => None
  end.

Definition login_request (username password : string) : Request :=
  mkRequest POST (fields [])
            (fields [("username", username); ("password", password)])
            no_files.

(** The tables [init_database] builds with a hash that [check_hash]
    accepts, and those tables after a first order of three laptops. *)
Definition hash_of (password : string) : string := "hash:" ++ password.

Definition opening : State := init_database hash_of t0.

Definition first_sale : State :=
  state (create_order dec_int opening None (order_request "3") env_ok 1).

(** An administrator's update of an order's status. *)
Definition status_request (status : string) : Request :=
  mkRequest POST (fields []) (fields [("status", status)]) no_files.

Definition catalog_request (query : list (string * string)) : Request :=
  mkRequest GET (fields query) (fields []) no_files.

(** An administrator's form for a lamp, with a picture. *)
Definition lamp_request : Request :=
  mkRequest POST (fields [])
            (fields [("name", "Lamp"); ("price", "50");
                     ("stock_quantity", "5"); ("is_active", "1")])
            (one_file "image" (mkFile "lamp.png" "PNG")).

(** ** Statements compared with the handlers *)


(** Every order carries one of the four values. *)
Definition statuses_ok (st : State) : Prop :=
  forall o, In o (orders st) -> In (Order.status o) STATUSES.

(** The test on a row that the query of the catalog amounts to. *)
Definition catalog_selects (py_float : string -> option float)
           (req : Request) (p : Product.t) : bool :=
  let category := get_str (args req) "category" "" in
  let min_price := get_float py_float (args req) "min_price" in
  let max_price := get_float py_float (args req) "max_price" in
  (String.eqb category "" || category_is category p)
  && match min_price with
     | Some m => negb (Py.float_truthy min_price)
                 || PrimFloat.leb m (Product.price p)
     | None => true
     end
  && match max_price with
     | Some m => negb (Py.float_truthy max_price)
                 || PrimFloat.leb (Product.price p) m
     | None => true
     end
  && Product.is_active p
  && (negb (opt_str_eqb (args req "in_stock") (Some "1"))
      || (Product.stock_quantity p >? 0)).

(** The specification's selection: an active product that meets every
    filter the query string supplies, that is a category that is not
    empty, a minimum and a maximum price that read as numbers, and the
    flag [in_stock=1]. *)
Definition spec_catalog_selects (py_float : string -> option float)
           (req : Request) (p : Product.t) : bool :=
  Product.is_active p
  && match args req "category" with
     | Some c => String.eqb c "" || category_is c p
     | None => true
     end
  && match get_float py_float (args req) "min_price" with
     | Some m => PrimFloat.leb m (Product.price p)
     | None => true
     end
  && match get_float py_float (args req) "max_price" with
     | Some m => PrimFloat.leb (Product.price p) m
     | None => true
     end
  && (negb (opt_str_eqb (args req "in_stock") (Some "1"))
      || (Product.stock_quantity p >? 0)).

(** Every order refers to a product that is in the table. *)
Definition orders_have_products (st : State) : Prop :=
  forall o, In o (orders st) -> get_product st (Order.product_id o) <> None.

(** A request whose commit fails. *)
Definition env_fail : Env := mkEnv t1 t1 (Some "database is locked").







(** The largest value that SQLite's INTEGER holds, the bound on the ids
    and offsets a query can be given. *)
Definition INTEGER_MAX : Z := 2 ^ 63 - 1.

(** A login form without the password field. *)
Definition nopw_request (username : string) : Request :=
  mkRequest POST (fields []) (fields [("username", username)]) no_files.

(** ** Routes that only read *)

(** [GET /]: the five latest published articles and the first eight
    active products. *)
Definition index (st : State) : list News.t * list Product.t :=
  (firstn 5 (order_by_desc News.created_at
                           (filter News.is_published (news st))),
   firstn 8 (filter Product.is_active (products st))).

(** [user_id = i] in a query: false on an order without a user. *)
Definition user_is (i : Z) (o : Order.t) : bool :=
  match Order.user_id o with
  | Some j => j =? i
  | None => false
  end.

(** [GET /profile]: the orders the page lists, or [None] when
    [login_required] sends the client to the login page. *)
Definition profile (st : State) (sess : option Z) : option (list Order.t) :=
  match current_user st sess with
  | None => None
  | Some u =>
      Some (order_by_desc Order.created_at
                          (filter (user_is (User.id u)) (orders st)))
  end.

(** An entry of the list [GET /api/products] answers with; [api_image] is
    the file name given to [url_for('static', filename=...)]. *)
Record ApiProduct : Type := mkApiProduct {
  api_id : Z;
  api_name : string;
  api_price : float;
  api_category : option string;
  api_in_stock : bool;
  api_stock_quantity : Z;
  api_image : option string
}.

(** [GET /api/products]. *)
Definition api_products (st : State) : list ApiProduct :=
  map (fun product =>
         mkApiProduct (Product.id product) (Product.name product)
                      (Product.price product) (Product.category product)
                      (Product.in_stock product)
                      (Product.stock_quantity product)
                      (if Py.truthy (Product.image product)
                       then Product.image product else None))
      (filter Product.is_active (products st)).

(** ** Relations between tables *)

(** The four tables are those of [st]; the files may differ. *)
Definition same_tables (st' st : State) : Prop :=
  users st' = users st /\ news st' = news st
  /\ products st' = products st /\ orders st' = orders st.

(** No two users share a name, and no two an email. *)
Definition users_unique (st : State) : Prop :=
  NoDup (map User.username (users st)) /\ NoDup (map User.email (users st)).

(** No two rows of a table share a primary key. *)
Definition keys_unique (st : State) : Prop :=
  NoDup (map User.id (users st)) /\ NoDup (map News.id (news st))
  /\ NoDup (map Product.id (products st))
  /\ NoDup (map Order.id (orders st)).

(** The caller is not an administrator: not logged in, or without the
    flag. *)
Definition not_admin (st : State) (sess : option Z) : Prop :=
  forall u, current_user st sess = Some u -> User.is_admin u = false.

(** [a] is listed before [b] under [created_at.desc()]. *)
Definition newer_first {A : Type} (key : A -> datetime) (a b : A) : Prop :=
  datetime_leb (key b) (key a) = true.

(** * Properties *)

(** Case analysis on a test the handler in the goal branches on, the
    innermost first. *)
Ltac branch :=
  match goal with
  | |- context [match ?x with _ => _ end] =>
      lazymatch x with
      | context [match _ with _ => _ end] => fail
      | _ => destruct x eqn:?
      end
  end.

Ltac branches := repeat (branch; simpl); try reflexivity; try discriminate.

Lemma clamp_low (q : Z) : (if q <? 1 then 1 else q) = Z.max 1 q.
Proof. destruct (Z.ltb_spec q 1); lia. Qed.

Lemma find_id_product (ps : list Product.t) (i : Z) (p : Product.t) :
  find (fun x => Product.id x =? i) ps = Some p -> Product.id p = i.
Proof.
  intros H. apply find_some in H. destruct H as [_ H].
  now apply Z.eqb_eq.
Qed.


Section OrderPlacement.

Variable py_int : string -> option Z.

(** C1. Whatever the request, [create_order] either leaves the orders as
    they are and does not answer with the success page, or appends one
    order for the product asked for, whose quantity is the requested one
    raised to 1 and lies between 1 and the product's stock at that moment;
    so no order is committed with a quantity above the stock. *)
Theorem create_order_within_stock st sess req env product_id :
  let r := create_order py_int st sess req env product_id in
  (orders (state r) = orders st
   /\ forall i, response r <> Redirect (UrlFor "order_success" i))
  \/ exists product o,
       get_product st product_id = Some product
       /\ orders (state r) = (orders st ++ [o])%list
       /\ response r = Redirect (UrlFor "order_success" (Some (Order.id o)))
       /\ Order.product_id o = product_id
       /\ Order.quantity o = Z.max 1 (get_int py_int (form req) "quantity" 1)
       /\ 1 <= Order.quantity o <= Product.stock_quantity product.
Proof.
  unfold create_order.
  destruct (get_product st product_id) as [product|] eqn:Hp; simpl;
    [|left; split; [reflexivity | discriminate]].
  destruct (negb (Product.in_stock product)); simpl;
    [left; split; [reflexivity | discriminate]|].
  destruct (method req); simpl; [left; split; [reflexivity | discriminate]|].
  destruct (negb (Py.truthy (form req "customer_name"))
            || negb (Py.truthy (form req "customer_phone"))); simpl;
    [left; split; [reflexivity | discriminate]|].
  rewrite clamp_low. set (q := Z.max 1 _).
  destruct (Z.gtb_spec q (Product.stock_quantity product)); simpl;
    [left; split; [reflexivity | discriminate]|].
  destruct (commit_error env); simpl;
    [left; split; [reflexivity | discriminate]|].
  right. exists product. eexists. split; [reflexivity|].
  split; [reflexivity|].
  destruct (current_user st sess); simpl; repeat split; auto; lia.
Qed.

(** C6. Placing an order leaves the product table as it was, whatever the
    outcome: every product, the one ordered included, keeps its stock and
    all its other fields. *)
Theorem create_order_keeps_products st sess req env product_id :
  let r := create_order py_int st sess req env product_id in
  products (state r) = products st
  /\ forall i, get_product (state r) i = get_product st i.
Proof.
  assert (H : products (state (create_order py_int st sess req env product_id))
              = products st).
  { unfold create_order. branches. }
  simpl. split; [exact H|]. intros i. unfold get_product. now rewrite H.
Qed.


End OrderPlacement.



(** ** Derived attributes *)

(** C5. [in_stock] is the conjunction of the active flag and a positive
    stock, for every product and so for each of the four combinations. *)
Theorem in_stock_is_active_and_stocked (p : Product.t) :
  Product.in_stock p
  = (Product.is_active p && (0 <? Product.stock_quantity p))
  /\ (Product.in_stock p = true
      <-> Product.is_active p = true /\ Product.stock_quantity p > 0).
Proof.
  unfold Product.in_stock. rewrite Z.gtb_ltb. split; [reflexivity|].
  rewrite andb_true_iff, Z.ltb_lt. intuition lia.
Qed.

Lemma find_replace {A : Type} (idf : A -> Z) (x' : A) (l : list A)
      (i : Z) (x : A) :
  find (fun y => idf y =? i) l = Some x ->
  idf x' = i ->
  find (fun y => idf y =? i)
       (map (fun y => if idf y =? idf x' then x' else y) l) = Some x'.
Proof.
  intros Hf Hi. subst i. induction l as [|a l IH]; simpl in *; [discriminate|].
  destruct (idf a =? idf x') eqn:Ha; simpl.
  - now rewrite Z.eqb_refl.
  - rewrite Ha. auto.
Qed.

Lemma find_replace_other {A : Type} (idf : A -> Z) (x' : A) (l : list A)
      (i : Z) :
  idf x' <> i ->
  find (fun y => idf y =? i)
       (map (fun y => if idf y =? idf x' then x' else y) l)
  = find (fun y => idf y =? i) l.
Proof.
  intros Hi. induction l as [|a l IH]; simpl; [reflexivity|].
  destruct (idf a =? idf x') eqn:Ha; simpl.
  - apply Z.eqb_eq in Ha. rewrite Ha.
    destruct (Z.eqb_spec (idf x') i); [contradiction | exact IH].
  - now rewrite IH.
Qed.

Section Totals.

Variable py_int : string -> option Z.
Variable py_float : string -> option float.
Variable secure_filename : string -> string.
Variable UPLOAD_FOLDER : string.



End Totals.

(** The scenario: the order of three widgets is stored as "новый" and the
    widget is still there with its stock of five. *)
Example shop_after_order_tables :
  orders shop_after_order = [order_of_three]
  /\ Order.status order_of_three = "новый"
  /\ get_product shop_after_order 1 = Some widget
  /\ Product.stock_quantity widget = 5.
Proof. repeat split; reflexivity. Qed.


(** ** Deleting a product *)

Lemma orders_count_pos st product_id o :
  In o (orders st) ->
  Order.product_id o = product_id ->
  (orders_count st product_id >? 0) = true.
Proof.
  intros Hin Hid. unfold orders_count.
  assert (H : In o (filter (fun o => Order.product_id o =? product_id)
                           (orders st))).
  { apply filter_In. split; [exact Hin | now apply Z.eqb_eq]. }
  destruct (filter _ (orders st)); [contradiction|].
  apply Z.gtb_lt. simpl length. lia.
Qed.

(** C3. Deleting a product that an order references changes nothing: the
    tables and the files after the request are those before it, the
    product is still found under its id, and an administrator gets the
    message that names the number of orders and is sent back to the
    product list. *)
Theorem admin_delete_product_blocked st sess env product_id product o :
  get_product st product_id = Some product ->
  In o (orders st) ->
  Order.product_id o = product_id ->
  let r := admin_delete_product st sess env product_id in
  state r = st
  /\ get_product (state r) product_id = Some product
  /\ forall u,
       current_user st sess = Some u ->
       User.is_admin u = true ->
       flashes r = [("Нельзя удалить товар, так как на него есть "
                       ++ Py.str_of_int (orders_count st product_id)
                       ++ " заказ(ов)", "danger")]
       /\ response r = Redirect (UrlFor "admin_products" None).
Proof.
  intros Hp Hin Hid r.
  pose proof (orders_count_pos st product_id o Hin Hid) as Hc.
  assert (Hs : state r = st).
  { subst r. unfold admin_delete_product, admin_only.
    destruct (current_user st sess) as [u|]; [|reflexivity].
    destruct (negb (User.is_admin u)); [reflexivity|].
    now rewrite Hp, Hc. }
  split; [exact Hs|]. split; [now rewrite Hs|].
  intros u Hu Ha. subst r. unfold admin_delete_product, admin_only.
  now rewrite Hu, Ha, Hp, Hc.
Qed.

(** The widget, once ordered, survives the administrator's attempt to
    delete it. *)
Lemma admin_delete_product_blocked_witness :
  state (admin_delete_product shop_after_order (Some 1) env_ok 1)
  = shop_after_order
  /\ get_product (state (admin_delete_product shop_after_order (Some 1) env_ok 1)) 1
     = Some widget
  /\ flashes (admin_delete_product shop_after_order (Some 1) env_ok 1)
     = [("Нельзя удалить товар, так как на него есть 1 заказ(ов)", "danger")]
  /\ response (admin_delete_product shop_after_order (Some 1) env_ok 1)
     = Redirect (UrlFor "admin_products" None).
Proof.
  destruct (admin_delete_product_blocked shop_after_order (Some 1) env_ok 1
              widget order_of_three eq_refl (or_introl eq_refl) eq_refl)
    as [H1 [H2 H3]].
  split; [exact H1|]. split; [exact H2|].
  exact (H3 the_admin eq_refl eq_refl).
Defined.

(** ** Logging in *)

Section Login.

Variable check_password_hash : string -> option string -> option bool.

(** A wrong password and an unknown name are answered alike. For a
    client that is not logged in, a POST with a user name that
    no user has and a POST with the name of a user whose password check
    fails have the same outcome: tables and session untouched, the one
    message flashed, the login page rendered. *)
Theorem login_failures_indistinguishable st sess req1 req2 user :
  current_user st sess = None ->
  method req1 = POST ->
  method req2 = POST ->
  user_by_username st (form req1 "username") = None ->
  user_by_username st (form req2 "username") = Some user ->
  check_password_hash (User.password_hash user) (form req2 "password")
  = Some false ->
  login check_password_hash st sess req1
  = login check_password_hash st sess req2
  /\ login check_password_hash st sess req2
     = mkResult st sess [("Неверное имя пользователя или пароль", "danger")]
                (Render "login.html").
Proof.
  intros Hu Hm1 Hm2 H1 H2 Hc. unfold login.
  rewrite Hu, Hm1, Hm2, H1, H2, Hc. split; reflexivity.
Qed.

End Login.

(** An unknown name and the administrator's name with a wrong password. *)
Lemma login_failures_indistinguishable_witness :
  login check_hash shop None (login_request "nobody" "admin123")
  = login check_hash shop None (login_request "admin" "letmein")
  /\ login check_hash shop None (login_request "admin" "letmein")
     = mkResult shop None [("Неверное имя пользователя или пароль", "danger")]
                (Render "login.html").
Proof.
  apply (login_failures_indistinguishable check_hash shop None
           (login_request "nobody" "admin123")
           (login_request "admin" "letmein") the_admin); reflexivity.
Defined.

(** A form without password is answered by the login page when no user
    has the name, and by the 500 page when a user has it, whenever the
    password check raises without a password. *)
Lemma login_without_password
      (check_password_hash : string -> option string -> option bool)
      st sess req :
  (forall pwhash, check_password_hash pwhash None = None) ->
  current_user st sess = None ->
  method req = POST ->
  form req "password" = None ->
  (user_by_username st (form req "username") = None ->
   login check_password_hash st sess req
   = mkResult st sess [("Неверное имя пользователя или пароль", "danger")]
              (Render "login.html"))
  /\ (user_by_username st (form req "username") <> None ->
      login check_password_hash st sess req = error500 st sess).
Proof.
  intros Hraise Hu Hm Hpw. unfold login. rewrite Hu, Hm, Hpw. split.
  - intros Hn. now rewrite Hn.
  - intros Hn. destruct (user_by_username st (form req "username"));
      [now rewrite Hraise | contradiction].
Qed.

(** C10 (the handler departs from it). A login form that has no password
    field fails in two ways that the client can tell apart: for the name
    "nobody", which no user has, the login page is rendered with the
    message; for the name "admin", which a user has, the password check
    raises and the answer is the 500 page, without message. *)
Theorem login_without_password_tells_names_apart :
  login check_hash shop None (nopw_request "nobody")
  = mkResult shop None [("Неверное имя пользователя или пароль", "danger")]
             (Render "login.html")
  /\ login check_hash shop None (nopw_request "admin")
     = mkResult shop None [] ServerError
  /\ login check_hash shop None (nopw_request "nobody")
     <> login check_hash shop None (nopw_request "admin").
Proof.
  split; [reflexivity|]. split; [reflexivity|]. discriminate.
Qed.

(** ** The status of an order *)

Lemma str_in_In (s : string) (l : list string) :
  str_in s l = true -> In s l.
Proof.
  unfold str_in. intros H. apply existsb_exists in H.
  destruct H as [x [Hx He]]. apply String.eqb_eq in He. now subst.
Qed.

Section Status.

Variable py_int : string -> option Z.
Variable py_float : string -> option float.
Variable secure_filename : string -> string.
Variable generate_password_hash : string -> string.
Variable check_password_hash : string -> option string -> option bool.
Variable UPLOAD_FOLDER : string.

Lemma create_order_orders st sess req env product_id :
  let r := create_order py_int st sess req env product_id in
  orders (state r) = orders st
  \/ exists o, orders (state r) = (orders st ++ [o])%list
               /\ Order.status o = "новый".
Proof.
  unfold create_order. repeat (branch; simpl); auto;
    right; eexists; (split; [reflexivity|reflexivity]).
Qed.

(** The order found under an id after a status update, in terms of the
    order found there before. *)
Lemma admin_order_detail_status st sess req env order_id o o' :
  get_order st order_id = Some o ->
  get_order (state (admin_order_detail st sess req env order_id)) order_id
  = Some o' ->
  Order.status o' = Order.status o
  \/ (Py.truthy (form req "status") = true
      /\ str_in (value (form req "status")) STATUSES = true
      /\ Order.status o' = value (form req "status")).
Proof.
  intros Ho. pose proof Ho as Hid. unfold get_order in Hid.
  apply find_some in Hid. destruct Hid as [_ Hid]. apply Z.eqb_eq in Hid.
  unfold admin_order_detail, admin_only.
  destruct (current_user st sess) as [u|];
    cbn [state abort404 error500 unauthorized];
    [|rewrite Ho; intros H; injection H as <-; now left].
  destruct (negb (User.is_admin u));
    cbn [state abort404 error500 unauthorized];
    [rewrite Ho; intros H; injection H as <-; now left|].
  rewrite Ho. destruct (method req);
    cbn [state abort404 error500 unauthorized];
    [rewrite Ho; intros H; injection H as <-; now left|].
  destruct (commit_error env);
    cbn [state abort404 error500 unauthorized];
    [rewrite Ho; intros H; injection H as <-; now left|].
  unfold get_order, replace_order. cbn [orders set_orders].
  match goal with
  | |- context [map (fun y => if _ =? Order.id ?x then _ else _) _] =>
      rewrite (find_replace Order.id x (orders st) order_id o Ho Hid)
  end.
  intros H; injection H as <-. cbn [Order.status].
  match goal with
  | |- context [if ?c then _ else _] =>
      change c with (Py.truthy (form req "status")
                     && str_in (value (form req "status")) STATUSES)
  end.
  destruct (Py.truthy (form req "status")
            && str_in (value (form req "status")) STATUSES) eqn:Hc.
  - apply andb_true_iff in Hc. destruct Hc as [Ht Hs]. right. auto.
  - now left.
Qed.

Lemma admin_order_detail_statuses_ok st sess req env order_id :
  statuses_ok st ->
  statuses_ok (state (admin_order_detail st sess req env order_id)).
Proof.
  intros Hok. unfold admin_order_detail, admin_only.
  destruct (current_user st sess) as [u|]; [|exact Hok].
  destruct (negb (User.is_admin u)); [exact Hok|].
  destruct (get_order st order_id) as [order|] eqn:Ho; [|exact Hok].
  destruct (method req); [exact Hok|].
  destruct (commit_error env); [exact Hok|].
  cbn [state]. intros o' Hin. cbn [orders set_orders] in Hin.
  unfold replace_order in Hin. apply in_map_iff in Hin.
  destruct Hin as [x [Hx Hinx]].
  destruct (Order.id x =? _) in Hx; [|subst o'; auto].
  subst o'. cbn [Order.status].
  destruct (Py.truthy (form req "status")
            && str_in (value (form req "status")) STATUSES) eqn:Hc.
  - apply andb_true_iff in Hc. now apply str_in_In.
  - apply Hok. unfold get_order in Ho. now apply find_some in Ho.
Qed.

Lemma statuses_ok_orders st st' :
  orders st' = orders st -> statuses_ok st -> statuses_ok st'.
Proof. intros H Hok o Hin. rewrite H in Hin. auto. Qed.

Lemma login_orders st sess req :
  orders (state (login check_password_hash st sess req)) = orders st.
Proof. unfold login. branches. Qed.

Lemma logout_orders st sess :
  orders (state (logout st sess)) = orders st.
Proof. unfold logout. branches. Qed.

Lemma register_orders st sess req env :
  orders (state (register generate_password_hash st sess req env)) = orders st.
Proof. unfold register. branches. Qed.

Lemma admin_create_news_orders st sess req env :
  orders (state (admin_create_news secure_filename UPLOAD_FOLDER
                                   st sess req env)) = orders st.
Proof. unfold admin_create_news, admin_only. branches. Qed.

Lemma admin_edit_news_orders st sess req env news_id :
  orders (state (admin_edit_news secure_filename UPLOAD_FOLDER
                                 st sess req env news_id)) = orders st.
Proof. unfold admin_edit_news, admin_only. branches. Qed.

Lemma admin_delete_news_orders st sess env news_id :
  orders (state (admin_delete_news st sess env news_id)) = orders st.
Proof. unfold admin_delete_news, admin_only. branches. Qed.

Lemma admin_create_product_orders st sess req env :
  orders (state (admin_create_product py_int py_float secure_filename
                                      UPLOAD_FOLDER st sess req env))
  = orders st.
Proof. unfold admin_create_product, admin_only. branches. Qed.

Lemma admin_edit_product_orders st sess req env product_id :
  orders (state (admin_edit_product py_int py_float secure_filename
                                    UPLOAD_FOLDER st sess req env product_id))
  = orders st.
Proof. unfold admin_edit_product, admin_only. branches. Qed.

Lemma admin_delete_product_orders st sess env product_id :
  orders (state (admin_delete_product st sess env product_id)) = orders st.
Proof. unfold admin_delete_product, admin_only. branches. Qed.

Lemma admin_toggle_product_orders st sess env product_id :
  orders (state (admin_toggle_product st sess env product_id)) = orders st.
Proof. unfold admin_toggle_product, admin_only. branches. Qed.

Lemma step_statuses_ok st st' :
  step py_int py_float secure_filename generate_password_hash
       check_password_hash UPLOAD_FOLDER st st' ->
  statuses_ok st -> statuses_ok st'.
Proof.
  intros Hstep Hok. destruct Hstep.
  - destruct (create_order_orders st sess req env product_id) as [H|[o [H Hs]]];
      intros o' Hin; rewrite H in Hin; [auto|].
    apply in_app_or in Hin. destruct Hin as [Hin|[<-|[]]]; [auto|].
    rewrite Hs. simpl. auto.
  - eapply statuses_ok_orders; [apply login_orders | exact Hok].
  - eapply statuses_ok_orders; [apply logout_orders | exact Hok].
  - eapply statuses_ok_orders; [apply register_orders | exact Hok].
  - eapply statuses_ok_orders; [apply admin_create_news_orders | exact Hok].
  - eapply statuses_ok_orders; [apply admin_edit_news_orders | exact Hok].
  - eapply statuses_ok_orders; [apply admin_delete_news_orders | exact Hok].
  - now apply admin_order_detail_statuses_ok.
  - eapply statuses_ok_orders; [apply admin_create_product_orders | exact Hok].
  - eapply statuses_ok_orders; [apply admin_edit_product_orders | exact Hok].
  - eapply statuses_ok_orders; [apply admin_delete_product_orders | exact Hok].
  - eapply statuses_ok_orders; [apply admin_toggle_product_orders | exact Hok].
Qed.

(** C8. In all tables the application reaches, every order's status is one
    of the four values of [STATUSES]; an order that [create_order] appends
    has the status "новый"; and the order found under an id after
    [admin_order_detail] has the status it had before, unless the submitted
    status is one of the four values, which it may then have taken: a
    submitted value outside the four, or none, leaves the status as it
    was. *)
Theorem order_status_in_enumeration st :
  reachable py_int py_float secure_filename generate_password_hash
            check_password_hash UPLOAD_FOLDER st ->
  statuses_ok st
  /\ (forall sess req env product_id o,
        orders (state (create_order py_int st sess req env product_id))
        = (orders st ++ [o])%list ->
        Order.status o = "новый")
  /\ (forall sess req env order_id o o',
        get_order st order_id = Some o ->
        get_order (state (admin_order_detail st sess req env order_id)) order_id
        = Some o' ->
        (Order.status o' = Order.status o
         \/ (form req "status" = Some (Order.status o')
             /\ In (Order.status o') STATUSES))
        /\ (forall s, form req "status" = Some s -> ~ In s STATUSES ->
                      Order.status o' = Order.status o)
        /\ (form req "status" = None -> Order.status o' = Order.status o)).
Proof.
  intros Hr. split; [|split].
  - induction Hr as [t|st st' Hr IH Hstep].
    + intros o [].
    + eapply step_statuses_ok; eauto.
  - intros sess req env product_id o H.
    destruct (create_order_orders st sess req env product_id)
      as [H'|[o0 [H' Hs]]]; rewrite H' in H.
    + apply (f_equal (@length _)) in H. rewrite length_app in H.
      simpl in H. lia.
    + apply app_inj_tail in H. destruct H as [_ <-]. exact Hs.
  - intros sess req env order_id o o' Ho Ho'.
    destruct (admin_order_detail_status st sess req env order_id o o' Ho Ho')
      as [H|[Ht [Hs He]]].
    + repeat split; auto.
    + destruct (form req "status") as [s|] eqn:Hf; [|discriminate Ht].
      cbn [value] in He, Hs. subst s. apply str_in_In in Hs. split; [|split].
      * right. auto.
      * intros s Hs' Hn. injection Hs' as <-. contradiction.
      * discriminate.
Qed.

End Status.

(** The first order placed after the start is "новый". *)
Lemma order_status_in_enumeration_witness :
  statuses_ok first_sale
  /\ map Order.status (orders first_sale) = ["новый"].
Proof.
  split; [|reflexivity].
  apply (order_status_in_enumeration dec_int dec_float (fun s => s) hash_of
           check_hash "/srv/uploads" first_sale).
  exact (reachable_step dec_int dec_float (fun s => s) hash_of check_hash
           "/srv/uploads" opening first_sale
           (reachable_init dec_int dec_float (fun s => s) hash_of check_hash
              "/srv/uploads" t0)
           (step_create_order dec_int dec_float (fun s => s) hash_of check_hash
              "/srv/uploads" opening None (order_request "3") env_ok 1)).
Defined.

(** A status outside the four values leaves the order as it was; one of
    the four is taken over. *)
Example status_update_examples :
  map Order.status
      (orders (state (admin_order_detail first_sale (Some 1)
                                         (status_request "shipped") env_ok 1)))
  = ["новый"]
  /\ map Order.status
         (orders (state (admin_order_detail first_sale (Some 1)
                                            (status_request "выполнен")
                                            env_ok 1)))
     = ["выполнен"].
Proof. split; reflexivity. Qed.

(** ** The catalog *)

Lemma filter_filter {A : Type} (f g : A -> bool) (l : list A) :
  filter f (filter g l) = filter (fun x => g x && f x) l.
Proof.
  induction l as [|a l IH]; simpl; [reflexivity|].
  destruct (g a); simpl; [destruct (f a)|]; now rewrite IH.
Qed.

Lemma filter_true {A : Type} (l : list A) : filter (fun _ => true) l = l.
Proof. induction l as [|a l IH]; simpl; [reflexivity | now rewrite IH]. Qed.

Lemma filter_ext_eq {A : Type} (f g : A -> bool) (l : list A) :
  (forall x, f x = g x) -> filter f l = filter g l.
Proof. intros H. apply filter_ext_in. auto. Qed.

Lemma In_firstn {A : Type} (n : nat) (l : list A) (x : A) :
  In x (firstn n l) -> In x l.
Proof.
  intros H. rewrite <- (firstn_skipn n l). apply in_or_app. now left.
Qed.

Lemma In_skipn {A : Type} (n : nat) (l : list A) (x : A) :
  In x (skipn n l) -> In x l.
Proof.
  intros H. rewrite <- (firstn_skipn n l). apply in_or_app. now right.
Qed.

Lemma In_insert_desc {A : Type} (key : A -> datetime) (x y : A) (l : list A) :
  In y (insert_desc key x l) -> y = x \/ In y l.
Proof.
  induction l as [|b l IH]; simpl.
  - intros [<-|[]]. now left.
  - destruct (datetime_leb _ _); simpl; [intuition congruence|].
    intros [<-|Hin]; [auto|]. destruct (IH Hin); auto.
Qed.

Lemma In_order_by_desc {A : Type} (key : A -> datetime) (y : A) (l : list A) :
  In y (order_by_desc key l) -> In y l.
Proof.
  induction l as [|a l IH]; simpl; [auto|]. intros Hin.
  destruct (In_insert_desc _ _ _ _ Hin) as [->|Hin']; auto.
Qed.

Section Catalog.

Variable py_int : string -> option Z.
Variable py_float : string -> option float.

(** The query is the filter of the product table by [catalog_selects]. *)
Lemma catalog_query_filter st req :
  catalog_query py_float st req
  = filter (catalog_selects py_float req) (products st).
Proof.
  unfold catalog_query, catalog_selects.
  set (category := get_str (args req) "category" "").
  set (min_price := get_float py_float (args req) "min_price").
  set (max_price := get_float py_float (args req) "max_price").
  set (flag := opt_str_eqb (args req "in_stock") (Some "1")).
  rewrite <- (filter_true (products st)) at 1.
  destruct (String.eqb category ""); cbn [negb orb];
    destruct min_price as [m|]; [destruct (Py.float_truthy (Some m))| |
                                 destruct (Py.float_truthy (Some m))|];
    cbn [negb orb];
    (destruct max_price as [m'|]; [destruct (Py.float_truthy (Some m'))|]);
    cbn [negb orb]; destruct flag; cbn [negb orb];
    rewrite ?filter_filter; apply filter_ext_eq; intros x;
    cbn [andb]; rewrite ?andb_true_r, ?andb_assoc; reflexivity.
Qed.

(** The products on a page of the catalog are rows that pass the test. *)
Lemma catalog_page_selected st req p :
  In p (page_products (catalog py_int py_float st req)) ->
  In p (products st) /\ catalog_selects py_float req p = true.
Proof.
  unfold catalog, paginate. cbn [page_products]. intros H.
  apply In_firstn, In_skipn, In_order_by_desc in H.
  rewrite catalog_query_filter in H. now apply filter_In in H.
Qed.

(** Where the price bounds that are supplied are not zero, the catalog
    selects as the specification says. *)
Lemma catalog_selects_as_specified req p :
  (forall m, get_float py_float (args req) "min_price" = Some m ->
             PrimFloat.eqb m 0 = false) ->
  (forall m, get_float py_float (args req) "max_price" = Some m ->
             PrimFloat.eqb m 0 = false) ->
  catalog_selects py_float req p = spec_catalog_selects py_float req p.
Proof.
  intros Hmin Hmax. unfold catalog_selects, spec_catalog_selects, get_str.
  destruct (get_float py_float (args req) "min_price") as [m|];
    [cbn [Py.float_truthy]; rewrite (Hmin m eq_refl)|];
    (destruct (get_float py_float (args req) "max_price") as [m'|];
     [cbn [Py.float_truthy]; rewrite (Hmax m' eq_refl)|]);
    cbn [negb orb];
    destruct (args req "category") as [c|]; cbn [String.eqb orb];
    destruct (Product.is_active p); cbn [andb];
    rewrite ?andb_true_r, ?andb_false_r; cbn [andb]; reflexivity.
Qed.

End Catalog.

(** C4 (the handler departs from it). A maximum price of zero is supplied
    and reads as the number 0, the widget costs 100 and so does not meet
    it, and yet the widget is on the page of the catalog: the test
    [if max_price:] takes the zero for an absent filter. *)
Theorem catalog_ignores_zero_max_price :
  get_float dec_float (args (catalog_request [("max_price", "0")])) "max_price"
  = Some 0%float
  /\ PrimFloat.leb (Product.price widget) 0 = false
  /\ spec_catalog_selects dec_float (catalog_request [("max_price", "0")])
                          widget = false
  /\ page_products (catalog dec_int dec_float shop
                            (catalog_request [("max_price", "0")]))
     = [widget].
Proof. repeat split; reflexivity. Qed.

(** With a maximum of 50 the same widget is filtered out. *)
Example catalog_applies_positive_max_price :
  page_products (catalog dec_int dec_float shop
                         (catalog_request [("max_price", "50")])) = [].
Proof. reflexivity. Qed.

(** ** Uploaded images *)

Section Uploads.

Variable py_int : string -> option Z.
Variable py_float : string -> option float.
Variable secure_filename : string -> string.
Variable UPLOAD_FOLDER : string.

(** A new product's picture is saved under its cleaned name alone. *)
Lemma admin_create_product_saves st sess req env u f :
  current_user st sess = Some u ->
  User.is_admin u = true ->
  method req = POST ->
  files req "image" = Some f ->
  file_truthy (Some f) = true ->
  disk (state (admin_create_product py_int py_float secure_filename
                                    UPLOAD_FOLDER st sess req env))
  = (upload_path UPLOAD_FOLDER "products" (secure_filename (filename f)),
     stream f) :: disk st.
Proof.
  intros Hu Ha Hm Hf Ht. unfold admin_create_product, admin_only.
  rewrite Hu, Ha, Hm, Hf, Ht. cbn [negb orb]. branches.
Qed.

(** An edited product's picture is saved under the stamped name. *)
Lemma admin_edit_product_saves st sess req env product_id u product f :
  current_user st sess = Some u ->
  User.is_admin u = true ->
  get_product st product_id = Some product ->
  method req = POST ->
  files req "image" = Some f ->
  file_truthy (Some f) = true ->
  disk (state (admin_edit_product py_int py_float secure_filename
                                  UPLOAD_FOLDER st sess req env product_id))
  = (upload_path UPLOAD_FOLDER "products"
                 (strftime_stamp (now env) ++ "_"
                    ++ secure_filename (filename f)),
     stream f) :: disk st.
Proof.
  intros Hu Ha Hp Hm Hf Ht. unfold admin_edit_product, admin_only.
  rewrite Hu, Ha, Hp, Hm, Hf, Ht. cbn [negb orb]. branches.
Qed.

(** So is the picture of a new article. *)
Lemma admin_create_news_saves st sess req env u f :
  current_user st sess = Some u ->
  User.is_admin u = true ->
  method req = POST ->
  Py.truthy (form req "title") = true ->
  Py.truthy (form req "content") = true ->
  files req "image" = Some f ->
  file_truthy (Some f) = true ->
  disk (state (admin_create_news secure_filename UPLOAD_FOLDER
                                 st sess req env))
  = (upload_path UPLOAD_FOLDER "news"
                 (strftime_stamp (now env) ++ "_"
                    ++ secure_filename (filename f)),
     stream f) :: disk st.
Proof.
  intros Hu Ha Hm Htitle Hcontent Hf Ht. unfold admin_create_news, admin_only.
  rewrite Hu, Ha, Hm, Htitle, Hcontent, Hf, Ht. cbn [negb orb]. branches.
Qed.

(** And the picture of an edited article. *)
Lemma admin_edit_news_saves st sess req env news_id u item f :
  current_user st sess = Some u ->
  User.is_admin u = true ->
  get_news st news_id = Some item ->
  method req = POST ->
  files req "image" = Some f ->
  file_truthy (Some f) = true ->
  disk (state (admin_edit_news secure_filename UPLOAD_FOLDER
                               st sess req env news_id))
  = (upload_path UPLOAD_FOLDER "news"
                 (strftime_stamp (now env) ++ "_"
                    ++ secure_filename (filename f)),
     stream f) :: disk st.
Proof.
  intros Hu Ha Hn Hm Hf Ht. unfold admin_edit_news, admin_only.
  rewrite Hu, Ha, Hn, Hm, Hf, Ht. cbn [negb orb]. branches.
Qed.

End Uploads.

(** C9 (the handler departs from it). The picture "lamp.png" of a new
    product is saved as "products/lamp.png" under the upload folder, with
    no stamp before its name, and the product points to that file; the
    same picture sent to the edit route at the same moment is saved as
    "products/20240307_180542_lamp.png". *)
Theorem admin_create_product_does_not_stamp :
  disk (state (admin_create_product dec_int dec_float (fun s => s)
                                    "/srv/uploads" shop (Some 1)
                                    lamp_request env_ok))
  = [("/srv/uploads/products/lamp.png", "PNG")]
  /\ map Product.image
         (products (state (admin_create_product dec_int dec_float (fun s => s)
                                                "/srv/uploads" shop (Some 1)
                                                lamp_request env_ok)))
     = [None; Some "uploads/products/lamp.png"]
  /\ strftime_stamp (now env_ok) = "20240307_180542"
  /\ disk (state (admin_edit_product dec_int dec_float (fun s => s)
                                     "/srv/uploads" shop (Some 1)
                                     lamp_request env_ok 1))
     = [("/srv/uploads/products/20240307_180542_lamp.png", "PNG")].
Proof. repeat split; reflexivity. Qed.

(** ** Orders and their products *)

Lemma find_app_some {A : Type} (f : A -> bool) (l l' : list A) :
  find f l <> None -> find f (l ++ l') <> None.
Proof.
  induction l as [|a l IH]; simpl; [congruence|].
  destruct (f a); [congruence | exact IH].
Qed.

Lemma find_filter_other {A : Type} (idf : A -> Z) (i j : Z) (l : list A) :
  i <> j ->
  find (fun y => idf y =? i) (filter (fun y => negb (idf y =? j)) l)
  = find (fun y => idf y =? i) l.
Proof.
  intros Hij. induction l as [|a l IH]; simpl; [reflexivity|].
  destruct (Z.eqb_spec (idf a) j) as [Hj|Hj]; simpl.
  - destruct (Z.eqb_spec (idf a) i); [congruence | exact IH].
  - now rewrite IH.
Qed.

Lemma find_replace_some {A : Type} (idf : A -> Z) (x' : A) (l : list A)
      (i : Z) :
  find (fun y => idf y =? i) l <> None ->
  find (fun y => idf y =? i)
       (map (fun y => if idf y =? idf x' then x' else y) l) <> None.
Proof.
  intros H. destruct (Z.eq_dec (idf x') i) as [Hi|Hi].
  - destruct (find (fun y => idf y =? i) l) as [x|] eqn:Hf; [|congruence].
    now rewrite (find_replace idf x' l i x Hf Hi).
  - now rewrite find_replace_other.
Qed.

Lemma orders_count_zero st product_id o :
  (orders_count st product_id >? 0) = false ->
  In o (orders st) ->
  Order.product_id o <> product_id.
Proof.
  intros Hc Hin Hid. rewrite (orders_count_pos st product_id o Hin Hid) in Hc.
  discriminate.
Qed.

Section References.

Variable py_int : string -> option Z.
Variable py_float : string -> option float.
Variable secure_filename : string -> string.
Variable generate_password_hash : string -> string.
Variable check_password_hash : string -> option string -> option bool.
Variable UPLOAD_FOLDER : string.

Lemma create_order_references st sess req env product_id :
  orders_have_products st ->
  orders_have_products (state (create_order py_int st sess req env product_id)).
Proof.
  intros H. unfold create_order.
  destruct (get_product st product_id) as [product|] eqn:Hp; [|exact H].
  repeat (branch; cbn [state abort404]); try exact H.
  all: intros o Hin; cbn [orders set_orders] in Hin;
    unfold get_product; cbn [products set_products];
    apply in_app_or in Hin; destruct Hin as [Hin|[<-|[]]];
    [now apply H
    | simpl; unfold get_product in Hp; rewrite Hp; discriminate].
Qed.

Lemma admin_order_detail_references st sess req env order_id :
  orders_have_products st ->
  orders_have_products (state (admin_order_detail st sess req env order_id)).
Proof.
  intros H. unfold admin_order_detail, admin_only.
  destruct (get_order st order_id) as [order|] eqn:Ho;
    repeat (branch; cbn [state abort404 error500 unauthorized]); try exact H.
  all: intros o' Hin; cbn [orders set_orders] in Hin; unfold get_product;
    cbn [products set_products]; unfold replace_order in Hin;
    apply in_map_iff in Hin; destruct Hin as [x [Hx Hinx]];
    destruct (Order.id x =? _) in Hx; subst o'; [|now apply H];
    cbn [Order.product_id]; apply H; unfold get_order in Ho;
    now apply find_some in Ho.
Qed.

Lemma admin_create_product_references st sess req env :
  orders_have_products st ->
  orders_have_products
    (state (admin_create_product py_int py_float secure_filename
                                 UPLOAD_FOLDER st sess req env)).
Proof.
  intros H. unfold admin_create_product, admin_only.
  repeat (branch; cbn [state abort404 error500 unauthorized]);
    try exact H;
    intros o Hin; unfold get_product;
    cbn [orders products set_products save_file] in *;
    try apply find_app_some; now apply H.
Qed.

Lemma admin_edit_product_references st sess req env product_id :
  orders_have_products st ->
  orders_have_products
    (state (admin_edit_product py_int py_float secure_filename
                               UPLOAD_FOLDER st sess req env product_id)).
Proof.
  intros H. unfold admin_edit_product, admin_only.
  repeat (branch; cbn [state abort404 error500 unauthorized]);
    try exact H;
    intros o Hin; unfold get_product, replace_product;
    cbn [orders products set_products save_file] in *;
    try apply find_replace_some; now apply H.
Qed.

Lemma admin_toggle_product_references st sess env product_id :
  orders_have_products st ->
  orders_have_products (state (admin_toggle_product st sess env product_id)).
Proof.
  intros H. unfold admin_toggle_product, admin_only.
  repeat (branch; cbn [state abort404 error500 unauthorized]);
    try exact H;
    intros o Hin; unfold get_product, replace_product;
    cbn [orders products set_products] in *;
    apply find_replace_some; now apply H.
Qed.

Lemma admin_delete_product_references st sess env product_id :
  orders_have_products st ->
  orders_have_products (state (admin_delete_product st sess env product_id)).
Proof.
  intros H. unfold admin_delete_product, admin_only.
  destruct (get_product st product_id) as [product|] eqn:Hp;
    [destruct (orders_count st product_id >? 0) eqn:Hc|];
    repeat (branch; cbn [state abort404 error500 unauthorized]);
    try exact H.
  intros o Hin. unfold get_product. cbn [orders products set_products] in *.
  rewrite (find_id_product _ _ _ Hp).
  rewrite find_filter_other; [now apply H|].
  now apply (orders_count_zero st product_id o Hc).
Qed.

(** The routes that write neither orders nor products. *)
Ltac frame_route H :=
  unfold admin_only;
  repeat (branch; cbn [state abort404 error500 unauthorized]); exact H.

Lemma step_references st st' :
  step py_int py_float secure_filename generate_password_hash
       check_password_hash UPLOAD_FOLDER st st' ->
  orders_have_products st -> orders_have_products st'.
Proof.
  intros Hstep H. destruct Hstep.
  - now apply create_order_references.
  - unfold login. frame_route H.
  - unfold logout. frame_route H.
  - unfold register. frame_route H.
  - unfold admin_create_news. frame_route H.
  - unfold admin_edit_news. frame_route H.
  - unfold admin_delete_news. frame_route H.
  - now apply admin_order_detail_references.
  - now apply admin_create_product_references.
  - now apply admin_edit_product_references.
  - now apply admin_delete_product_references.
  - now apply admin_toggle_product_references.
Qed.

(** In all tables the application reaches, the product of every order is
    there, so that [total_price] never takes the branch without product. *)
Lemma reachable_orders_have_products st :
  reachable py_int py_float secure_filename generate_password_hash
            check_password_hash UPLOAD_FOLDER st ->
  orders_have_products st.
Proof.
  induction 1 as [t|st st' Hr IH Hstep].
  - intros o [].
  - eapply step_references; eauto.
Qed.

End References.

(** * Further properties of the routes *)

(** ** Who may write *)

Lemma admin_only_denied st sess k :
  not_admin st sess -> state (admin_only st sess k) = st.
Proof.
  intros H. unfold admin_only.
  destruct (current_user st sess) as [u|] eqn:Hu; [|reflexivity].
  now rewrite (H u Hu).
Qed.

Section Access.

Variable py_int : string -> option Z.
Variable py_float : string -> option float.
Variable secure_filename : string -> string.
Variable UPLOAD_FOLDER : string.

(** X1. A caller who is not an administrator changes nothing through the
    eight admin routes that write: tables and files stay as they were,
    whatever the request. *)
Theorem admin_routes_need_admin st sess req env i :
  not_admin st sess ->
  state (admin_create_news secure_filename UPLOAD_FOLDER st sess req env) = st
  /\ state (admin_edit_news secure_filename UPLOAD_FOLDER st sess req env i)
     = st
  /\ state (admin_delete_news st sess env i) = st
  /\ state (admin_order_detail st sess req env i) = st
  /\ state (admin_create_product py_int py_float secure_filename
                                 UPLOAD_FOLDER st sess req env) = st
  /\ state (admin_edit_product py_int py_float secure_filename
                               UPLOAD_FOLDER st sess req env i) = st
  /\ state (admin_delete_product st sess env i) = st
  /\ state (admin_toggle_product st sess env i) = st.
Proof.
  intros H.
  unfold admin_create_news, admin_edit_news, admin_delete_news,
    admin_order_detail, admin_create_product, admin_edit_product,
    admin_delete_product, admin_toggle_product.
  repeat split; now apply admin_only_denied.
Qed.

(** X2. A commit that fails leaves the four tables as they were, on
    [create_order] and on the eight admin routes that write; only a file
    saved before the commit remains. *)
Theorem failed_commit_keeps_tables st sess req env i e :
  commit_error env = Some e ->
  same_tables (state (create_order py_int st sess req env i)) st
  /\ same_tables (state (admin_create_news secure_filename UPLOAD_FOLDER
                                           st sess req env)) st
  /\ same_tables (state (admin_edit_news secure_filename UPLOAD_FOLDER
                                         st sess req env i)) st
  /\ same_tables (state (admin_delete_news st sess env i)) st
  /\ same_tables (state (admin_order_detail st sess req env i)) st
  /\ same_tables (state (admin_create_product py_int py_float secure_filename
                                              UPLOAD_FOLDER st sess req env)) st
  /\ same_tables (state (admin_edit_product py_int py_float secure_filename
                                            UPLOAD_FOLDER st sess req env i)) st
  /\ same_tables (state (admin_delete_product st sess env i)) st
  /\ same_tables (state (admin_toggle_product st sess env i)) st.
Proof.
  intros He.
  unfold create_order, admin_create_news, admin_edit_news, admin_delete_news,
    admin_order_detail, admin_create_product, admin_edit_product,
    admin_delete_product, admin_toggle_product, admin_only, same_tables.
  rewrite He.
  repeat match goal with |- _ /\ _ => split end;
    repeat (branch; cbn [state abort404 error500 unauthorized]);
    reflexivity.
Qed.

End Access.

(** The test user of [init_database] cannot add the lamp nor switch the
    laptop off. *)
Lemma admin_routes_need_admin_witness :
  state (admin_create_product dec_int dec_float (fun s => s) "/srv/uploads"
                              opening (Some 2) lamp_request env_ok) = opening
  /\ state (admin_toggle_product opening (Some 2) env_ok 1) = opening.
Proof.
  assert (H : not_admin opening (Some 2)).
  { intros u Hu. vm_compute in Hu. injection Hu as <-. reflexivity. }
  destruct (admin_routes_need_admin dec_int dec_float (fun s => s)
              "/srv/uploads" opening (Some 2) lamp_request env_ok 1 H)
    as (_ & _ & _ & _ & H5 & _ & _ & H8).
  split; assumption.
Defined.

(** The order of three widgets and the lamp are not stored when the
    commit fails; the lamp's picture is on the disk all the same. *)
Lemma failed_commit_keeps_tables_witness :
  same_tables (state (create_order dec_int shop None (order_request "3")
                                   env_fail 1)) shop
  /\ same_tables (state (admin_create_product dec_int dec_float (fun s => s)
                                              "/srv/uploads" shop (Some 1)
                                              lamp_request env_fail)) shop
  /\ disk (state (admin_create_product dec_int dec_float (fun s => s)
                                       "/srv/uploads" shop (Some 1)
                                       lamp_request env_fail))
     = [("/srv/uploads/products/lamp.png", "PNG")].
Proof.
  split; [|split; [|reflexivity]].
  - apply (failed_commit_keeps_tables dec_int dec_float (fun s => s)
             "/srv/uploads" shop None (order_request "3") env_fail 1
             "database is locked" eq_refl).
  - apply (failed_commit_keeps_tables dec_int dec_float (fun s => s)
             "/srv/uploads" shop (Some 1) lamp_request env_fail 1
             "database is locked" eq_refl).
Defined.

(** ** Switching a product on and off *)

Lemma toggle_twice (p : Product.t) :
  Product.mk (Product.id p) (Product.name p) (Product.description p)
             (Product.price p) (Product.image p) (Product.category p)
             (negb (negb (Product.is_active p))) (Product.stock_quantity p)
             (Product.created_at p) = p.
Proof. destruct p. simpl. now rewrite negb_involutive. Qed.

Lemma admin_toggle_product_found st sess env product_id u product :
  current_user st sess = Some u ->
  User.is_admin u = true ->
  get_product st product_id = Some product ->
  commit_error env = None ->
  let st' := state (admin_toggle_product st sess env product_id) in
  users st' = users st
  /\ get_product st' product_id
     = Some (Product.mk (Product.id product) (Product.name product)
                        (Product.description product) (Product.price product)
                        (Product.image product) (Product.category product)
                        (negb (Product.is_active product))
                        (Product.stock_quantity product)
                        (Product.created_at product)).
Proof.
  intros Hu Ha Hp Hc. unfold admin_toggle_product, admin_only.
  rewrite Hu, Ha, Hp, Hc. cbn [negb state]. split; [reflexivity|].
  unfold get_product, replace_product. cbn [products set_products].
  match goal with
  | |- context [map (fun p => if _ =? Product.id ?x then _ else _) _] =>
      exact (find_replace Product.id x (products st) product_id product Hp
                          (find_id_product _ _ _ Hp))
  end.
Qed.

(** X3. An administrator who toggles a product twice, both commits
    succeeding, finds the product as it was before: the flag is back and
    no other field has changed; after the first toggle the flag is the
    opposite. *)
Theorem admin_toggle_product_twice st sess env env' product_id u product :
  current_user st sess = Some u ->
  User.is_admin u = true ->
  get_product st product_id = Some product ->
  commit_error env = None ->
  commit_error env' = None ->
  let st1 := state (admin_toggle_product st sess env product_id) in
  let st2 := state (admin_toggle_product st1 sess env' product_id) in
  option_map Product.is_active (get_product st1 product_id)
  = Some (negb (Product.is_active product))
  /\ get_product st2 product_id = Some product.
Proof.
  intros Hu Ha Hp Hc Hc' st1 st2.
  destruct (admin_toggle_product_found st sess env product_id u product
              Hu Ha Hp Hc) as [Hus H1].
  fold st1 in Hus, H1. split; [now rewrite H1|].
  assert (Hu1 : current_user st1 sess = Some u).
  { unfold current_user, get_user in *. now rewrite Hus. }
  destruct (admin_toggle_product_found st1 sess env' product_id u _
              Hu1 Ha H1 Hc') as [_ H2].
  fold st2 in H2. rewrite H2. cbn [Product.id Product.name Product.description
    Product.price Product.image Product.category Product.is_active
    Product.stock_quantity Product.created_at].
  now rewrite toggle_twice.
Qed.

Lemma admin_toggle_product_twice_witness :
  option_map Product.is_active
             (get_product (state (admin_toggle_product shop (Some 1) env_ok 1)) 1)
  = Some false
  /\ get_product
       (state (admin_toggle_product
                 (state (admin_toggle_product shop (Some 1) env_ok 1))
                 (Some 1) env_ok 1)) 1
     = Some widget.
Proof.
  exact (admin_toggle_product_twice shop (Some 1) env_ok env_ok 1 the_admin
           widget eq_refl eq_refl eq_refl eq_refl eq_refl).
Defined.

(** ** Keys, names and references in the tables the application reaches *)

Lemma NoDup_snoc {A : Type} (l : list A) (x : A) :
  NoDup l -> ~ In x l -> NoDup (l ++ [x]).
Proof.
  intros Hl Hx. apply NoDup_app; [exact Hl | repeat constructor; auto |].
  intros a Ha [<-|[]]. contradiction.
Qed.

Lemma fold_max_ge (ids : list Z) (x : Z) :
  In x ids -> x <= fold_right Z.max 0 ids.
Proof.
  induction ids as [|a ids IH]; simpl; [contradiction|].
  intros [->|H]; [lia|]. specialize (IH H). lia.
Qed.

Lemma next_id_fresh (ids : list Z) : ~ In (next_id ids) ids.
Proof.
  intros H. apply fold_max_ge in H. unfold next_id in H. lia.
Qed.

Lemma NoDup_map_snoc {A : Type} (idf : A -> Z) (l : list A) (x : A) :
  idf x = next_id (map idf l) ->
  NoDup (map idf l) -> NoDup (map idf (l ++ [x])).
Proof.
  intros Hx Hl. rewrite map_app. simpl. apply NoDup_snoc; [exact Hl|].
  rewrite Hx. apply next_id_fresh.
Qed.

Lemma map_id_replace {A : Type} (idf : A -> Z) (i : Z) (x' : A)
      (l : list A) :
  idf x' = i ->
  map idf (map (fun y => if idf y =? i then x' else y) l) = map idf l.
Proof.
  intros Hi. induction l as [|a l IH]; simpl; [reflexivity|]. rewrite IH.
  f_equal. destruct (Z.eqb_spec (idf a) i); congruence.
Qed.

Lemma NoDup_map_replace {A : Type} (idf : A -> Z) (i : Z) (x' : A)
      (l : list A) :
  idf x' = i ->
  NoDup (map idf l) ->
  NoDup (map idf (map (fun y => if idf y =? i then x' else y) l)).
Proof. intros Hi. now rewrite map_id_replace. Qed.

Lemma NoDup_map_filter {A B : Type} (g : A -> B) (f : A -> bool)
      (l : list A) :
  NoDup (map g l) -> NoDup (map g (filter f l)).
Proof.
  induction l as [|a l IH]; simpl; [auto|]. intros H.
  apply NoDup_cons_iff in H. destruct H as [Ha Hl].
  destruct (f a); simpl; [|auto]. constructor; [|auto].
  intros Hin. apply Ha. apply in_map_iff in Hin.
  destruct Hin as [x [Hx Hin]]. apply filter_In in Hin.
  apply in_map_iff. exists x. tauto.
Qed.

Lemma find_name_none {A : Type} (namef : A -> string) (n : string)
      (l : list A) :
  find (fun u => String.eqb (namef u) n) l = None -> ~ In n (map namef l).
Proof.
  intros Hf Hin. apply in_map_iff in Hin. destruct Hin as [u [Hn Hu]].
  pose proof (find_none _ _ Hf u Hu) as H. simpl in H.
  rewrite Hn, String.eqb_refl in H. discriminate.
Qed.

(** Closes the goals on keys left after the case analysis of a route. *)
Ltac keep_keys :=
  first
    [ assumption
    | apply NoDup_map_snoc; [reflexivity | assumption]
    | apply NoDup_map_filter; assumption
    | match goal with
      | |- NoDup (map ?idf (map (fun y => if _ =? ?i then ?x else _) ?l)) =>
          exact (NoDup_map_replace idf i x l eq_refl ltac:(assumption))
      end ].

(** Closes a goal that the case analysis of a route reduces to [H]. *)
Ltac keep H :=
  unfold admin_only;
  repeat (branch; cbn [state abort404 error500 unauthorized]); exact H.

Section Invariants.

Variable py_int : string -> option Z.
Variable py_float : string -> option float.
Variable secure_filename : string -> string.
Variable generate_password_hash : string -> string.
Variable check_password_hash : string -> option string -> option bool.
Variable UPLOAD_FOLDER : string.

Lemma step_keys_unique st st' :
  step py_int py_float secure_filename generate_password_hash
       check_password_hash UPLOAD_FOLDER st st' ->
  keys_unique st -> keys_unique st'.
Proof.
  intros Hstep (Hu & Hn & Hp & Ho).
  destruct Hstep;
    unfold create_order, login, logout, register, admin_create_news,
      admin_edit_news, admin_delete_news, admin_order_detail,
      admin_create_product, admin_edit_product, admin_delete_product,
      admin_toggle_product, admin_only, keys_unique;
    repeat (branch; cbn [state abort404 error500 unauthorized]);
    cbn [users news products orders set_users set_news set_products
         set_orders save_file];
    unfold replace_order, replace_product;
    repeat split; keep_keys.
Qed.

Lemma step_users_unique st st' :
  step py_int py_float secure_filename generate_password_hash
       check_password_hash UPLOAD_FOLDER st st' ->
  users_unique st -> users_unique st'.
Proof.
  intros Hstep H. destruct Hstep.
  4: { unfold register.
       destruct (user_by_username st (form req "username")) eqn:Hn;
         [keep H|].
       destruct (user_by_email st (form req "email")) eqn:He;
         [keep H|].
       repeat (branch; cbn [state abort404 error500 unauthorized]);
         try exact H.
       destruct H as [H1 H2]. unfold users_unique.
       cbn [users set_users]. rewrite !map_app. cbn [map User.username User.email].
       split; (apply NoDup_snoc; [assumption|]);
         [exact (find_name_none User.username _ _ Hn)
         | exact (find_name_none User.email _ _ He)]. }
  all: unfold create_order, login, logout, admin_create_news,
      admin_edit_news, admin_delete_news, admin_order_detail,
      admin_create_product, admin_edit_product, admin_delete_product,
      admin_toggle_product; keep H.
Qed.

Lemma init_database_unique t :
  keys_unique (init_database generate_password_hash t)
  /\ users_unique (init_database generate_password_hash t).
Proof.
  unfold keys_unique, users_unique, init_database. simpl.
  repeat split; repeat constructor; simpl; intuition (try discriminate; lia).
Qed.

(** X4. In all tables the application reaches, no two users have the same
    name and no two the same email: [register] refuses a name or an email
    that is taken. *)
Theorem reachable_users_unique st :
  reachable py_int py_float secure_filename generate_password_hash
            check_password_hash UPLOAD_FOLDER st ->
  users_unique st.
Proof.
  induction 1 as [t|st st' Hr IH Hstep].
  - apply init_database_unique.
  - eapply step_users_unique; eauto.
Qed.

(** X5. In all tables the application reaches, the primary keys of each
    table are pairwise distinct: a new row gets a key above all keys in
    use, and edits and deletions keep the keys of the rows that stay. *)
Theorem reachable_keys_unique st :
  reachable py_int py_float secure_filename generate_password_hash
            check_password_hash UPLOAD_FOLDER st ->
  keys_unique st.
Proof.
  induction 1 as [t|st st' Hr IH Hstep].
  - apply init_database_unique.
  - eapply step_keys_unique; eauto.
Qed.

(** X6. In all tables the application reaches, every order refers to a
    product that is in the product table under the order's [product_id]:
    orders are placed on products that exist, and a product with orders
    is not deleted. *)
Theorem reachable_orders_reference_products st o :
  reachable py_int py_float secure_filename generate_password_hash
            check_password_hash UPLOAD_FOLDER st ->
  In o (orders st) ->
  exists product,
    order_product st o = Some product
    /\ In product (products st)
    /\ Product.id product = Order.product_id o.
Proof.
  intros Hr Hin.
  pose proof (reachable_orders_have_products py_int py_float secure_filename
                generate_password_hash check_password_hash UPLOAD_FOLDER
                st Hr o Hin) as H.
  unfold order_product. unfold get_product in *.
  destruct (find _ (products st)) as [product|] eqn:Hf; [|congruence].
  exists product. split; [reflexivity|].
  apply find_some in Hf. destruct Hf as [Hp Hid].
  split; [exact Hp | now apply Z.eqb_eq].
Qed.

End Invariants.

Lemma first_sale_reachable :
  reachable dec_int dec_float (fun s => s) hash_of check_hash "/srv/uploads"
            first_sale.
Proof.
  apply (reachable_step dec_int dec_float (fun s => s) hash_of check_hash
           "/srv/uploads" opening first_sale).
  - apply reachable_init.
  - apply (step_create_order dec_int dec_float (fun s => s) hash_of check_hash
             "/srv/uploads" opening None (order_request "3") env_ok 1).
Defined.

Lemma reachable_users_unique_witness : users_unique first_sale.
Proof.
  exact (reachable_users_unique dec_int dec_float (fun s => s) hash_of
           check_hash "/srv/uploads" first_sale first_sale_reachable).
Defined.

Lemma reachable_keys_unique_witness : keys_unique first_sale.
Proof.
  exact (reachable_keys_unique dec_int dec_float (fun s => s) hash_of
           check_hash "/srv/uploads" first_sale first_sale_reachable).
Defined.

(** The first order refers to the laptop. *)
Lemma reachable_orders_reference_products_witness :
  exists product,
    order_product first_sale order_of_three = Some product
    /\ In product (products first_sale)
    /\ Product.id product = Order.product_id order_of_three.
Proof.
  apply (reachable_orders_reference_products dec_int dec_float (fun s => s)
           hash_of check_hash "/srv/uploads" first_sale order_of_three
           first_sale_reachable).
  left. reflexivity.
Defined.

(** ** Accounts and sessions *)




Section Accounts.

Variable generate_password_hash : string -> string.
Variable check_password_hash : string -> option string -> option bool.

(** X7. [login] never writes the tables, and it changes the session only
    for a client that is not logged in, on a POST, to the id of the user
    found under the submitted name, after the check of the submitted
    password against that user's hash has succeeded. *)
Theorem login_needs_password st sess req :
  let r := login check_password_hash st sess req in
  state r = st
  /\ (session r = sess
      \/ exists user,
           current_user st sess = None
           /\ method req = POST
           /\ user_by_username st (form req "username") = Some user
           /\ check_password_hash (User.password_hash user)
                                  (form req "password") = Some true
           /\ session r = Some (User.id user)).
Proof.
  unfold login.
  destruct (current_user st sess) eqn:Hu; [simpl; auto|].
  destruct (method req) eqn:Hm; [simpl; auto|].
  destruct (user_by_username st (form req "username")) as [user|] eqn:Hn;
    [|simpl; auto].
  destruct (check_password_hash _ _) as [[|]|] eqn:Hc; simpl; auto.
  split; [reflexivity|]. right. exists user. auto.
Qed.



End Accounts.



(** ** More on placing an order *)

Lemma app_snoc_neq {A : Type} (l : list A) (x : A) : l <> (l ++ [x])%list.
Proof.
  intros H. apply (f_equal (@length _)) in H. rewrite length_app in H.
  simpl in H. lia.
Qed.

Section Placing.

Variable py_int : string -> option Z.

(** X10. No order can be placed on a product that is missing, switched
    off or without stock: for an id that SQLite's INTEGER holds and
    whatever the request, nothing is stored, and the answer is the 404
    page or the redirect to the product page. *)
Theorem create_order_refuses_unavailable st sess req env product_id :
  0 <= product_id <= INTEGER_MAX ->
  (forall product, get_product st product_id = Some product ->
                   Product.is_active product = false
                   \/ Product.stock_quantity product <= 0) ->
  let r := create_order py_int st sess req env product_id in
  state r = st
  /\ session r = sess
  /\ (response r = NotFound
      \/ (flashes r = [("Этот товар временно отсутствует в наличии", "danger")]
          /\ response r = Redirect (UrlFor "product_detail" (Some product_id)))).
Proof.
  intros _ H r. subst r. unfold create_order.
  destruct (get_product st product_id) as [product|]; [|simpl; auto].
  assert (Hs : Product.in_stock product = false).
  { unfold Product.in_stock. destruct (H product eq_refl) as [->|Hq];
      [reflexivity|]. apply andb_false_iff. right.
    destruct (Z.gtb_spec (Product.stock_quantity product) 0); [lia|reflexivity]. }
  rewrite Hs. simpl. auto.
Qed.

(** X11. An order that [create_order] appends gets the next key, the
    name and phone that were submitted, and the id of the user who is
    logged in, if one is. Its email is the one submitted; only a user
    who is logged in and submits none gets the email of the account, if
    that is not empty. *)
Theorem create_order_attribution st sess req env product_id o :
  orders (state (create_order py_int st sess req env product_id))
  = (orders st ++ [o])%list ->
  Order.id o = next_id (map Order.id (orders st))
  /\ Order.customer_name o = value (form req "customer_name")
  /\ Order.customer_phone o = value (form req "customer_phone")
  /\ Order.customer_name o <> "" /\ Order.customer_phone o <> ""
  /\ Order.user_id o = option_map User.id (current_user st sess)
  /\ (current_user st sess = None \/ Py.truthy (form req "customer_email") = true ->
      Order.customer_email o = form req "customer_email")
  /\ (forall u, current_user st sess = Some u ->
                Py.truthy (form req "customer_email") = false ->
                Order.customer_email o
                = if String.eqb (User.email u) ""
                  then form req "customer_email" else Some (User.email u)).
Proof.
  unfold create_order.
  destruct (get_product st product_id) as [product|];
    [|intros H; now apply app_snoc_neq in H].
  destruct (negb (Product.in_stock product));
    [intros H; now apply app_snoc_neq in H|].
  destruct (method req); [intros H; now apply app_snoc_neq in H|].
  destruct (negb (Py.truthy (form req "customer_name"))
            || negb (Py.truthy (form req "customer_phone"))) eqn:Hf;
    [intros H; now apply app_snoc_neq in H|].
  apply orb_false_iff in Hf. destruct Hf as [Hn Hp].
  apply negb_false_iff in Hn, Hp.
  destruct (_ >? Product.stock_quantity product);
    [intros H; now apply app_snoc_neq in H|].
  destruct (commit_error env); [intros H; now apply app_snoc_neq in H|].
  cbn [state orders set_orders]. intros H. apply app_inj_tail in H.
  destruct H as [_ <-].
  assert (Hv : forall f, Py.truthy f = true -> value f <> "").
  { intros [s|]; simpl; [|discriminate]. intros Hs ->. discriminate. }
  destruct (current_user st sess) as [u|]; simpl;
    repeat split; auto; try discriminate.
  - intros [Hc|Hc]; [discriminate|]. now rewrite Hc.
  - intros u' Hu Hc. injection Hu as <-. rewrite Hc. simpl.
    now destruct (String.eqb (User.email u) "").
Qed.

End Placing.

(** The phone that is switched on but has no stock cannot be ordered. *)
Lemma create_order_refuses_unavailable_witness :
  state (create_order dec_int opening None (order_request "1") env_ok 2)
  = opening
  /\ session (create_order dec_int opening None (order_request "1") env_ok 2)
     = None
  /\ (response (create_order dec_int opening None (order_request "1") env_ok 2)
      = NotFound
      \/ (flashes (create_order dec_int opening None (order_request "1")
                                env_ok 2)
          = [("Этот товар временно отсутствует в наличии", "danger")]
          /\ response (create_order dec_int opening None (order_request "1")
                                    env_ok 2)
             = Redirect (UrlFor "product_detail" (Some 2)))).
Proof.
  apply (create_order_refuses_unavailable dec_int opening None
           (order_request "1") env_ok 2).
  - unfold INTEGER_MAX. lia.
  - intros product H. vm_compute in H. injection H as <-. right. simpl. lia.
Defined.

(** The administrator orders three widgets without giving an email. *)
Lemma create_order_attribution_witness :
  exists o,
    orders (state (create_order dec_int shop (Some 1) (order_request "3")
                                env_ok 1)) = [o]
    /\ Order.id o = 1
    /\ Order.user_id o = Some 1
    /\ Order.customer_email o = Some "admin@example.com".
Proof.
  eexists. split; [reflexivity|].
  destruct (create_order_attribution dec_int shop (Some 1) (order_request "3")
              env_ok 1 _ eq_refl) as (H1 & _ & _ & _ & _ & H6 & _ & H8).
  split; [exact H1|]. split; [exact H6|].
  exact (H8 the_admin eq_refl eq_refl).
Defined.

(** ** The administrator's edits *)



Lemma find_filter_same {A : Type} (idf : A -> Z) (i : Z) (l : list A) :
  find (fun y => idf y =? i) (filter (fun y => negb (idf y =? i)) l) = None.
Proof.
  induction l as [|a l IH]; simpl; [reflexivity|].
  destruct (idf a =? i) eqn:Ha; simpl; [exact IH|]. now rewrite Ha.
Qed.

Lemma orders_count_none st product_id :
  (forall o, In o (orders st) -> Order.product_id o <> product_id) ->
  (orders_count st product_id >? 0) = false.
Proof.
  intros H. unfold orders_count.
  destruct (filter _ (orders st)) as [|o l] eqn:Hf; [reflexivity|].
  assert (Hin : In o (filter (fun o => Order.product_id o =? product_id)
                             (orders st))) by (rewrite Hf; now left).
  apply filter_In in Hin. destruct Hin as [Hin Hid].
  apply Z.eqb_eq in Hid. now apply H in Hin.
Qed.


(** X13. An administrator who deletes a product that no order refers to,
    the commit succeeding, removes it: it is no longer found under its
    id, every other product is found as before, and the orders are
    untouched. *)
Theorem admin_delete_product_removes st sess env product_id u product :
  current_user st sess = Some u ->
  User.is_admin u = true ->
  get_product st product_id = Some product ->
  (forall o, In o (orders st) -> Order.product_id o <> product_id) ->
  commit_error env = None ->
  let r := admin_delete_product st sess env product_id in
  get_product (state r) product_id = None
  /\ (forall i, i <> product_id ->
                get_product (state r) i = get_product st i)
  /\ orders (state r) = orders st
  /\ flashes r = [("Товар успешно удален", "success")].
Proof.
  intros Hu Ha Hp Hno Hc r. subst r.
  pose proof (find_id_product _ _ _ Hp) as Hid.
  unfold admin_delete_product, admin_only.
  rewrite Hu, Ha, Hp, (orders_count_none st product_id Hno), Hc.
  cbn [negb state flashes]. unfold get_product.
  cbn [products orders set_products]. rewrite Hid. repeat split.
  - apply find_filter_same.
  - intros i Hi. now apply find_filter_other.
Qed.

Section Editing.

Variable py_int : string -> option Z.
Variable py_float : string -> option float.
Variable secure_filename : string -> string.
Variable UPLOAD_FOLDER : string.



End Editing.


(** The widget that nobody has ordered is deleted. *)
Lemma admin_delete_product_removes_witness :
  get_product (state (admin_delete_product shop (Some 1) env_ok 1)) 1 = None
  /\ flashes (admin_delete_product shop (Some 1) env_ok 1)
     = [("Товар успешно удален", "success")].
Proof.
  destruct (admin_delete_product_removes shop (Some 1) env_ok 1 the_admin
              widget eq_refl eq_refl eq_refl (fun o (H : In o []) => match H with end)
              eq_refl) as (H1 & _ & _ & H4).
  split; assumption.
Defined.



(** ** What the pages list *)

From Stdlib Require Import Sorted.

Lemma lex_leb_total (a b : list Z) :
  length a = length b -> lex_leb a b = false -> lex_leb b a = true.
Proof.
  revert b. induction a as [|x a IH]; intros [|y b] Hl; simpl in *;
    try discriminate.
  intros H. apply orb_false_iff in H. destruct H as [Hlt H].
  apply Z.ltb_ge in Hlt. destruct (Z.ltb_spec y x) as [|Hge]; [reflexivity|].
  simpl. assert (Hxy : x = y) by lia. subst y.
  rewrite Z.eqb_refl in *. simpl in *. apply IH; [lia | exact H].
Qed.

Lemma datetime_leb_total (a b : datetime) :
  datetime_leb a b = false -> datetime_leb b a = true.
Proof. apply lex_leb_total. reflexivity. Qed.

Lemma In_insert_desc_iff {A : Type} (key : A -> datetime) (x y : A)
      (l : list A) :
  In y (insert_desc key x l) <-> y = x \/ In y l.
Proof.
  induction l as [|b l IH]; simpl; [intuition|].
  destruct (datetime_leb _ _); simpl; [intuition|].
  rewrite IH. intuition.
Qed.

Lemma In_order_by_desc_iff {A : Type} (key : A -> datetime) (y : A)
      (l : list A) :
  In y (order_by_desc key l) <-> In y l.
Proof.
  induction l as [|a l IH]; simpl; [tauto|].
  rewrite In_insert_desc_iff, IH. intuition.
Qed.

Lemma length_insert_desc {A : Type} (key : A -> datetime) (x : A)
      (l : list A) :
  length (insert_desc key x l) = S (length l).
Proof.
  induction l as [|b l IH]; simpl; [reflexivity|].
  destruct (datetime_leb _ _); simpl; [reflexivity | now rewrite IH].
Qed.

Lemma length_order_by_desc {A : Type} (key : A -> datetime) (l : list A) :
  length (order_by_desc key l) = length l.
Proof.
  induction l as [|a l IH]; simpl; [reflexivity|].
  now rewrite length_insert_desc, IH.
Qed.

Lemma insert_desc_sorted {A : Type} (key : A -> datetime) (x : A)
      (l : list A) :
  Sorted (newer_first key) l -> Sorted (newer_first key) (insert_desc key x l).
Proof.
  induction l as [|y l IH]; simpl; intros Hs; [repeat constructor|].
  destruct (datetime_leb (key y) (key x)) eqn:Hyx.
  - constructor; [exact Hs | constructor; exact Hyx].
  - apply Sorted_inv in Hs. destruct Hs as [Hs Hd].
    constructor; [now apply IH|].
    destruct l as [|z l]; simpl.
    + constructor. now apply datetime_leb_total.
    + destruct (datetime_leb (key z) (key x)).
      * constructor. now apply datetime_leb_total.
      * constructor. now apply HdRel_inv in Hd.
Qed.

Lemma order_by_desc_sorted {A : Type} (key : A -> datetime) (l : list A) :
  Sorted (newer_first key) (order_by_desc key l).
Proof.
  induction l as [|a l IH]; simpl; [constructor|].
  now apply insert_desc_sorted.
Qed.

Lemma Sorted_skipn {A : Type} (R : A -> A -> Prop) (n : nat) (l : list A) :
  Sorted R l -> Sorted R (skipn n l).
Proof.
  revert l. induction n as [|n IH]; intros [|a l] Hs; simpl; auto.
  apply IH. now apply Sorted_inv in Hs.
Qed.

Lemma Sorted_firstn {A : Type} (R : A -> A -> Prop) (n : nat) (l : list A) :
  Sorted R l -> Sorted R (firstn n l).
Proof.
  revert l. induction n as [|n IH]; intros [|a l] Hs; simpl;
    try constructor.
  - apply IH. now apply Sorted_inv in Hs.
  - apply Sorted_inv in Hs. destruct Hs as [_ Hd].
    destruct l as [|b l], n as [|n]; simpl; constructor.
    now apply HdRel_inv in Hd.
Qed.

Section Pages.

Variable py_int : string -> option Z.
Variable py_float : string -> option float.

(** X16. A page of the catalog holds at most twelve products; each is a
    row of the product table that is switched on, has the category asked
    for when one is asked for, and has stock when the page is asked with
    [in_stock=1]. *)
Theorem catalog_page_bounds st req :
  (length (page_products (catalog py_int py_float st req)) <= 12)%nat
  /\ forall p,
       In p (page_products (catalog py_int py_float st req)) ->
       In p (products st)
       /\ Product.is_active p = true
       /\ (forall c, args req "category" = Some c -> c <> "" ->
                     Product.category p = Some c)
       /\ (args req "in_stock" = Some "1" -> Product.in_stock p = true).
Proof.
  split.
  - unfold catalog, paginate. cbn [page_products]. apply firstn_le_length.
  - intros p Hin.
    destruct (catalog_page_selected py_int py_float st req p Hin) as [Hp Hs].
    split; [exact Hp|]. unfold catalog_selects in Hs.
    repeat (apply andb_true_iff in Hs; destruct Hs as [Hs ?]).
    split; [assumption|]. split.
    + intros c Hc Hne. unfold get_str in Hs. rewrite Hc in Hs.
      apply String.eqb_neq in Hne. rewrite Hne in Hs. simpl in Hs.
      unfold category_is in Hs.
      destruct (Product.category p) as [c'|]; [|discriminate].
      apply String.eqb_eq in Hs. now subst.
    + intros Hf. unfold Product.in_stock.
      match goal with
      | H : negb (opt_str_eqb _ _) || _ = true |- _ =>
          rewrite Hf in H; simpl in H; rewrite H
      end.
      now rewrite andb_true_r.
Qed.

(** X17. The products of a page of the catalog are listed from the newest
    to the oldest. *)
Theorem catalog_page_sorted st req :
  Sorted (newer_first Product.created_at)
         (page_products (catalog py_int py_float st req)).
Proof.
  unfold catalog, paginate. cbn [page_products].
  apply Sorted_firstn, Sorted_skipn, order_by_desc_sorted.
Qed.

(** X18. A page number that is missing, is not an integer or is below 1
    gives the first twelve products of the ordered selection; a page
    number past the last page, with an offset that SQLite's INTEGER
    holds, gives an empty page, not the 404 page. *)
Theorem catalog_page_edges st req :
  let page := get_int py_int (args req) "page" 1 in
  let selected :=
    order_by_desc Product.created_at (catalog_query py_float st req) in
  (page <= 1 ->
   page_products (catalog py_int py_float st req) = firstn 12 selected)
  /\ (Z.of_nat (length selected) <= (page - 1) * 12 ->
      (page - 1) * 12 <= INTEGER_MAX ->
      page_products (catalog py_int py_float st req) = []).
Proof.
  intros page selected. unfold catalog, paginate. cbn [page_products].
  fold page. fold selected. split.
  - intros Hp. destruct (Z.ltb_spec page 1).
    + reflexivity.
    + assert (page = 1) by lia. subst page. now replace (get_int _ _ _ _) with 1.
  - intros Hl _. destruct (Z.ltb_spec page 1) as [Hlt|Hge].
    + assert (Hn : length selected = 0%nat) by (unfold ITEMS_PER_PAGE in *; lia).
      destruct selected; [reflexivity | discriminate].
    + rewrite skipn_all2; [now destruct (Z.to_nat ITEMS_PER_PAGE)|].
      unfold ITEMS_PER_PAGE. lia.
Qed.

End Pages.

(** X19. The categories the catalog offers are those of the products,
    without the empty one and each listed once. *)
Theorem known_categories_spec st :
  NoDup (known_categories st)
  /\ forall c,
       In c (known_categories st)
       <-> c <> "" /\ exists p, In p (products st)
                                /\ Product.category p = Some c.
Proof.
  unfold known_categories. split; [apply NoDup_nodup|].
  intros c. rewrite nodup_In, filter_In, in_flat_map. split.
  - intros [[p [Hp Hc]] Hne]. split.
    + apply negb_true_iff, String.eqb_neq in Hne. exact Hne.
    + exists p. split; [exact Hp|].
      destruct (Product.category p) as [c'|]; [|contradiction].
      destruct Hc as [->|[]]. reflexivity.
  - intros [Hne [p [Hp Hc]]]. split.
    + exists p. split; [exact Hp|]. rewrite Hc. now left.
    + apply negb_true_iff, String.eqb_neq. exact Hne.
Qed.

(** X20. The profile page is shown to a client that is logged in, and it
    lists the orders of that user and no others, all of them, from the
    newest to the oldest. *)
Theorem profile_lists_own_orders st sess :
  match profile st sess with
  | None => current_user st sess = None
  | Some listed =>
      exists u,
        current_user st sess = Some u
        /\ (forall o, In o listed
                      <-> In o (orders st)
                          /\ Order.user_id o = Some (User.id u))
        /\ Sorted (newer_first Order.created_at) listed
  end.
Proof.
  unfold profile. destruct (current_user st sess) as [u|]; [|reflexivity].
  exists u. split; [reflexivity|]. split; [|apply order_by_desc_sorted].
  intros o. rewrite In_order_by_desc_iff, filter_In. unfold user_is.
  destruct (Order.user_id o) as [j|]; [|intuition discriminate].
  rewrite Z.eqb_eq. intuition congruence.
Qed.

(** X21. The product API lists the products that are switched on, each
    once per row and in the order of the table; the [in_stock] of an
    entry says whether its [stock_quantity] is positive, and its image
    is never an empty name. *)
Theorem api_products_spec st :
  map api_id (api_products st)
  = map Product.id (filter Product.is_active (products st))
  /\ forall e,
       In e (api_products st) ->
       api_in_stock e = (api_stock_quantity e >? 0)
       /\ api_image e <> Some ""
       /\ exists p, In p (products st) /\ Product.is_active p = true
                    /\ api_id e = Product.id p
                    /\ api_name e = Product.name p
                    /\ api_price e = Product.price p
                    /\ api_stock_quantity e = Product.stock_quantity p.
Proof.
  unfold api_products. split; [now rewrite map_map|].
  intros e Hin. apply in_map_iff in Hin. destruct Hin as [p [<- Hp]].
  apply filter_In in Hp. destruct Hp as [Hp Ha].
  cbn [api_in_stock api_stock_quantity api_image api_id api_name api_price].
  split; [unfold Product.in_stock; now rewrite Ha|]. split.
  - destruct (Product.image p) as [s|]; simpl; [|discriminate].
    destruct (String.eqb_spec s ""); simpl; congruence.
  - exists p. repeat split; auto.
Qed.

(** X22. The home page shows at most five articles, all published and
    from the newest to the oldest, and at most eight products, all
    switched on. *)
Theorem index_lists st :
  (length (fst (index st)) <= 5)%nat
  /\ (forall n, In n (fst (index st)) ->
                In n (news st) /\ News.is_published n = true)
  /\ Sorted (newer_first News.created_at) (fst (index st))
  /\ (length (snd (index st)) <= 8)%nat
  /\ (forall p, In p (snd (index st)) ->
                In p (products st) /\ Product.is_active p = true).
Proof.
  unfold index. cbn [fst snd]. repeat split.
  - apply firstn_le_length.
  - apply In_firstn, In_order_by_desc_iff, filter_In in H. tauto.
  - apply In_firstn, In_order_by_desc_iff, filter_In in H. tauto.
  - apply Sorted_firstn, order_by_desc_sorted.
  - apply firstn_le_length.
  - apply In_firstn, filter_In in H. tauto.
  - apply In_firstn, filter_In in H. tauto.
Qed.

(** The widget's catalog: page 0 is the first page, page 5 is empty. *)
Lemma catalog_page_edges_witness :
  page_products (catalog dec_int dec_float shop
                         (catalog_request [("page", "0")])) = [widget]
  /\ page_products (catalog dec_int dec_float shop
                            (catalog_request [("page", "5")])) = [].
Proof.
  split.
  - apply (proj1 (catalog_page_edges dec_int dec_float shop
                    (catalog_request [("page", "0")]))).
    vm_compute. discriminate.
  - apply (proj2 (catalog_page_edges dec_int dec_float shop
                    (catalog_request [("page", "5")]))).
    + vm_compute. discriminate.
    + vm_compute. discriminate.
Defined.

(** ** Defaults and refusals *)

Section Defaults.

Variable py_int : string -> option Z.
Variable py_float : string -> option float.
Variable secure_filename : string -> string.
Variable generate_password_hash : string -> string.
Variable UPLOAD_FOLDER : string.



(** X25. The administrator's edits touch one row: after an edit or a
    toggle of a product every other product is found as before and the
    orders are the same, and after an update of an order every other
    order is found as before and the products are the same. *)
Theorem admin_edits_are_local st sess req env i j :
  i <> j ->
  (get_product (state (admin_edit_product py_int py_float secure_filename
                                          UPLOAD_FOLDER st sess req env i)) j
   = get_product st j
   /\ orders (state (admin_edit_product py_int py_float secure_filename
                                        UPLOAD_FOLDER st sess req env i))
      = orders st)
  /\ (get_product (state (admin_toggle_product st sess env i)) j
      = get_product st j
      /\ orders (state (admin_toggle_product st sess env i)) = orders st)
  /\ (get_order (state (admin_order_detail st sess req env i)) j
      = get_order st j
      /\ products (state (admin_order_detail st sess req env i))
         = products st).
Proof.
  intros Hij.
  assert (Hp : forall product p',
             get_product st i = Some product ->
             Product.id p' = Product.id product ->
             find (fun p => Product.id p =? j)
                  (replace_product p' (products st))
             = find (fun p => Product.id p =? j) (products st)).
  { intros product p' Hf Hid. unfold replace_product.
    apply find_replace_other. rewrite Hid, (find_id_product _ _ _ Hf).
    exact Hij. }
  assert (Ho : forall order o',
             get_order st i = Some order ->
             Order.id o' = Order.id order ->
             find (fun o => Order.id o =? j) (replace_order o' (orders st))
             = find (fun o => Order.id o =? j) (orders st)).
  { intros order o' Hf Hid. unfold replace_order.
    apply find_replace_other. rewrite Hid. unfold get_order in Hf.
    apply find_some in Hf. destruct Hf as [_ Hf]. apply Z.eqb_eq in Hf.
    now rewrite Hf. }
  unfold admin_edit_product, admin_toggle_product, admin_order_detail,
    admin_only, get_product at 1 3, get_order at 1.
  repeat split;
    destruct (get_product st i) as [product|] eqn:Hgp;
    destruct (get_order st i) as [order|] eqn:Hgo;
    repeat (branch; cbn [state abort404 error500 unauthorized]);
    cbn [products orders set_products set_orders save_file];
    try reflexivity;
    first [ eapply Hp; [reflexivity | reflexivity]
          | eapply Ho; [reflexivity | reflexivity] ].
Qed.


End Defaults.



(** Toggling the laptop leaves the headphones as they are. *)
Lemma admin_edits_are_local_witness :
  get_product (state (admin_toggle_product opening (Some 1) env_ok 1)) 3
  = get_product opening 3
  /\ orders (state (admin_toggle_product opening (Some 1) env_ok 1))
     = orders opening.
Proof.
  assert (H : 1 <> 3) by discriminate.
  exact (proj1 (proj2 (admin_edits_are_local dec_int dec_float (fun s => s)
                         "/srv/uploads" opening (Some 1) lamp_request env_ok
                         1 3 H))).
Defined.

